(** * Semantic-layer query generator: a shallow embedding and its properties

    The development follows [backend/semantic_parser.py] (the definition
    repository, class [SemanticLayerParser]) and [backend/query_generator.py]
    (class [QueryGenerator]).  Python strings are modelled by [string]
    (characters with code points below 256), YAML mappings by association
    lists in insertion order, exceptions by an explicit result type. *)

From Stdlib Require Import String Ascii List Bool Arith Lia.
Import ListNotations.
Open Scope string_scope.

(** ** Python string primitives *)

Module PyStr.

(** [str.isspace] on one character, for the code points below 256:
    TAB..CR, FS..US, space, NEL and NBSP. *)
Definition isspace (c : ascii) : bool :=
  let n := nat_of_ascii c in
  (((9 <=? n) && (n <=? 13)) || ((28 <=? n) && (n <=? 32))
   || (n =? 133) || (n =? 160))%nat.

Fixpoint lstrip (s : string) : string :=
  match s with
  | EmptyString => EmptyString
  | String c s' => if isspace c then lstrip s' else s
  end.

Fixpoint rstrip (s : string) : string :=
  match s with
  | EmptyString => EmptyString
  | String c s' =>
      match rstrip s' with
      | EmptyString => if isspace c then EmptyString else String c EmptyString
      | r => String c r
      end
  end.

(** [s.strip()] *)
Definition strip (s : string) : string := rstrip (lstrip s).

(** [s.startswith(sub)] *)
Fixpoint startswith (sub s : string) : bool :=
  match sub, s with
  | EmptyString, _ => true
  | String _ _, EmptyString => false
  | String a sub', String b s' => Ascii.eqb a b && startswith sub' s'
  end.

(** [sub in s] *)
Fixpoint is_in (sub s : string) : bool :=
  startswith sub s ||
  match s with
  | EmptyString => false
  | String _ s' => is_in sub s'
  end.

(** [sep.join(ls)] *)
Definition join (sep : string) (ls : list string) : string :=
  String.concat sep ls.

(** Truth value of a string: non-empty. *)
Definition truthy (s : string) : bool :=
  match s with EmptyString => false | _ => true end.

(** Number of positions of [s] at which [sub] starts. *)
Fixpoint occurrences (sub s : string) : nat :=
  (if startswith sub s then 1 else 0) +
  match s with
  | EmptyString => 0
  | String _ s' => occurrences sub s'
  end.

(** Formatting of an optional value inside an f-string: [None] prints as
    the four letters [None]. *)
Definition fmt (o : option string) : string :=
  match o with Some s => s | None => "None" end.

Definition nl : string := String (ascii_of_nat 10) EmptyString.

Fixpoint sp (n : nat) : string :=
  match n with O => EmptyString | S k => String " " (sp k) end.

(** *** Vocabulary for statements about generated text *)

(** [Substring sub s]: [sub] occurs in [s]. *)
Definition Substring (sub s : string) : Prop :=
  exists pre post, s = pre ++ sub ++ post.

(** The first, respectively last, character exists and is not white
    space. *)
Definition head_visible (sub : string) : bool :=
  match sub with String a _ => negb (isspace a) | EmptyString => false end.

Fixpoint last_visible (sub : string) : bool :=
  match sub with
  | EmptyString => false
  | String a EmptyString => negb (isspace a)
  | String _ sub' => last_visible sub'
  end.

Fixpoint mem_char (c : ascii) (s : string) : bool :=
  match s with
  | EmptyString => false
  | String a s' => Ascii.eqb a c || mem_char c s'
  end.

(** The text [tail] cannot complete an occurrence of [sub] begun before
    it: it is empty or starts with a character foreign to [sub]. *)
Definition foreign_head (sub tail : string) : bool :=
  match tail with
  | EmptyString => true
  | String t _ => negb (mem_char t sub)
  end.

End PyStr.

(** ** Python dictionaries and exceptions *)

(** A mapping in insertion order.  Keys are unique in a Python [dict];
    lookup takes the first binding. *)
Definition dict (V : Type) : Type := list (string * V).

Fixpoint get {V : Type} (k : string) (d : dict V) : option V :=
  match d with
  | [] => None
  | (k', v) :: d' => if String.eqb k' k then Some v else get k d'
  end.

(** [d.get(k, default)] *)
Definition get_default {V : Type} (k : string) (default : V) (d : dict V) : V :=
  match get k d with Some v => v | None => default end.

(** Truth value of a mapping: non-empty. *)
Definition dict_truthy {V : Type} (d : dict V) : bool :=
  match d with [] => false | _ => true end.

(** A mapping whose values are strings: one metric, one segment, an intent's
    filter.  The configuration's scalar values are all modelled as
    strings. *)
Definition fields : Type := dict string.

(** What a name under a segment type is bound to in the taxonomy document:
    a mapping (a segment) or a bare scalar (modelled as a string).  The
    code only tests such a value for truth and for being a mapping before
    it uses it, so the empty scalar also stands for an entry left null. *)
Inductive node : Type :=
| NScalar (s : string)
| NDict (d : fields).

Definition node_truthy (n : node) : bool :=
  match n with
  | NScalar s => PyStr.truthy s
  | NDict d => dict_truthy d
  end.

(** [isinstance(n, dict)] *)
Definition isinstance_dict (n : node) : bool :=
  match n with NDict _ => true | NScalar _ => false end.

(** What a segment type is bound to in the taxonomy document: a mapping of
    entries, a null ([empty_type:] with nothing after the colon), or a bare
    scalar (modelled as a string). *)
Inductive group : Type :=
| GMap (segments : dict node)
| GNull
| GScalar (s : string).

(** The exceptions the code can raise.  The message of a [TypeError]
    varies with the interpreter's version and is left out. *)
Inductive exn : Type :=
| ValueError (msg : string)
| KeyError (key : string)
| AttributeError (msg : string)
| TypeError.

Inductive result (A : Type) : Type :=
| Ok (a : A)
| Raise (e : exn).
Arguments Ok {A} a.
Arguments Raise {A} e.

Definition bind {A B : Type} (r : result A) (k : A -> result B) : result B :=
  match r with
  | Ok a => k a
  | Raise e => Raise e
  end.

Notation "x <- r ;; k" := (bind r (fun x => k))
  (at level 61, r at next level, right associativity).

(** ** The definition repository ([SemanticLayerParser]) *)

(** The three loaded documents.  [taxonomy] holds, under its top-level key
    [taxonomy], the mapping from each segment type to what the document
    binds it to (as a rule a mapping name -> segment); [metrics] holds, under
    [metrics], the metric list; [metadata] holds, under [columns], the column
    catalog. *)
Record SemanticLayerParser : Type := {
  taxonomy : dict (dict group);
  metadata : dict (dict fields);
  metrics : dict (list fields)
}.

(** [name in g]: membership in the keys of a mapping, the substring test on
    a string, a type error on a null. *)
Definition group_contains (name : string) (g : group) : result bool :=
  match g with
  | GMap segments =>
    Ok (match get name segments with Some _ => true | None => false end)
  | GNull => Raise TypeError
  | GScalar s => Ok (PyStr.is_in name s)
  end.

(** [g[name]]: the entry of a mapping; a string takes no string index. *)
Definition group_getitem (name : string) (g : group) : result (option node) :=
  match g with
  | GMap segments => Ok (get name segments)
  | GNull => Raise TypeError
  | GScalar _ => Raise TypeError
  end.

Definition get_customer_segment (self : SemanticLayerParser)
    (segment_type segment_name : string) : result (option node) :=
  let taxonomy := get_default "taxonomy" [] (taxonomy self) in
  let segments := get_default segment_type (GMap []) taxonomy in
  found <- group_contains segment_name segments ;;
  if found then group_getitem segment_name segments else Ok None.

Fixpoint find_metric (metric_name : string) (metrics_list : list fields)
  : option fields :=
  match metrics_list with
  | [] => None
  | metric :: rest =>
      match get "name" metric with
      | Some n => if String.eqb n metric_name then Some metric
                  else find_metric metric_name rest
      | None => find_metric metric_name rest
      end
  end.

Definition get_metric (self : SemanticLayerParser) (metric_name : string)
  : option fields :=
  let metrics_list := get_default "metrics" [] (metrics self) in
  find_metric metric_name metrics_list.

Definition get_column_metadata (self : SemanticLayerParser)
    (column_name : string) : option fields :=
  let columns := get_default "columns" [] (metadata self) in
  get column_name columns.

Definition list_all_metrics (self : SemanticLayerParser) : list string :=
  let metrics_list := get_default "metrics" [] (metrics self) in
  flat_map (fun m => match get "name" m with Some n => [n] | None => [] end)
           metrics_list.

(** ** The query generator ([QueryGenerator]) *)

Module QueryGenerator.
Import PyStr.

(** The generator object holds a reference to the repository and nothing
    else. *)
Record t : Type := { parser : SemanticLayerParser }.

Definition str_no_get : exn :=
  AttributeError "'str' object has no attribute 'get'".

(** [n.get(k)] on what a segment lookup returned: defined on mappings,
    an attribute error on a string. *)
Definition node_get (k : string) (n : node) : result (option string) :=
  match n with
  | NDict d => Ok (get k d)
  | NScalar _ => Raise str_no_get
  end.

(** Truth value of a list: non-empty. *)
Definition list_truthy {A : Type} (l : list A) : bool :=
  match l with [] => false | _ => true end.

(** Truth value of the result of a [.get]: [None] is false. *)
Definition opt_truthy (o : option string) : bool :=
  match o with Some s => truthy s | None => false end.

(** [o == lit] for the result of a [.get] and a string literal. *)
Definition opt_eqb (o : option string) (lit : string) : bool :=
  match o with Some s => String.eqb s lit | None => false end.

(** The block of [generate_metric_sql] that fills [where_clauses] from
    [filters]. *)
Definition build_where_clauses (self : t) (filters : option fields)
  : result (list string) :=
  let where_clauses : list string := [] in
  match filters with
  | None => Ok where_clauses
  | Some filters =>
    if dict_truthy filters then
      match get "segment_type" filters, get "segment" filters with
      | Some segment_type, Some segment_name =>
        if truthy segment_type && truthy segment_name then
          segment <- get_customer_segment (parser self)
                                          segment_type segment_name ;;
          match segment with
          | None => Ok where_clauses
          | Some segment =>
            if node_truthy segment then
              segment_definition <- node_get "definition" segment ;;
              Ok (List.app where_clauses ["(" ++ fmt segment_definition ++ ")"])
            else Ok where_clauses
          end
        else Ok where_clauses
      | _, _ => Ok where_clauses
      end
    else Ok where_clauses
  end.

Definition metric_not_found_in_layer (metric_name : string) : exn :=
  ValueError ("Metric '" ++ metric_name ++ "' not found in semantic layer").

(** The part of [generate_metric_sql] after the metric was resolved. *)
Definition metric_sql_body (self : t) (metric : fields)
    (filters : option fields) : result string :=
  let metric_sql := strip (get_default "sql" "" metric) in
  where_clauses <- build_where_clauses self filters ;;
  if opt_eqb (get "type" metric) "sum"
     || opt_eqb (get "type" metric) "calculated" then
    let select_clause := "AVG(" ++ metric_sql ++ ") as value" in
    let query :=
      nl ++ sp 12 ++ "SELECT " ++
      nl ++ sp 16 ++ select_clause ++
      nl ++ sp 12 ++ "FROM customers" ++
      nl ++ sp 12 in
    let query :=
      if list_truthy where_clauses
      then query ++ nl ++ "WHERE " ++ join " AND " where_clauses
      else query in
    let query :=
      if is_in "Income" metric_sql then
        if list_truthy where_clauses
        then query ++ nl ++ "  AND Income IS NOT NULL"
        else query ++ nl ++ "WHERE Income IS NOT NULL"
      else query in
    Ok (strip query)
  else
    let query := "SELECT " ++ metric_sql ++ " FROM customers" in
    Ok (strip query).

Definition generate_metric_sql (self : t) (metric_name : string)
    (filters : option fields) : result string :=
  match get_metric (parser self) metric_name with
  | None => Raise (metric_not_found_in_layer metric_name)
  | Some metric =>
    if negb (dict_truthy metric)
    then Raise (metric_not_found_in_layer metric_name)
    else metric_sql_body self metric filters
  end.

Definition metric_not_found (metric_name : string) : exn :=
  ValueError ("Metric '" ++ metric_name ++ "' not found").

(** The loop of [generate_segment_breakdown] over [segments.items()]:
    one clause for each entry that is a mapping with a true (present and
    non-empty) definition; the label falls back to the entry's name when
    the mapping has no [label] key. *)
Fixpoint case_clauses (segments : dict node) : list string :=
  match segments with
  | [] => []
  | (seg_name, seg_def) :: rest =>
    if isinstance_dict seg_def then
      match seg_def with
      | NDict d =>
        let definition := get "definition" d in
        let label := get_default "label" seg_name d in
        if opt_truthy definition
        then ("WHEN " ++ fmt definition ++ " THEN '" ++ label ++ "'")
               :: case_clauses rest
        else case_clauses rest
      | NScalar _ => case_clauses rest
      end
    else case_clauses rest
  end.

(** [g.items()]: the entries of a mapping; a null and a string have no
    such method. *)
Definition group_items (g : group) : result (dict node) :=
  match g with
  | GMap segments => Ok segments
  | GNull => Raise (AttributeError "'NoneType' object has no attribute 'items'")
  | GScalar _ => Raise (AttributeError "'str' object has no attribute 'items'")
  end.

Definition case_statement (clauses : list string) : string :=
  "CASE" ++ nl ++ sp 4 ++ join (nl ++ sp 4) clauses
  ++ nl ++ sp 4 ++ "ELSE 'Other'" ++ nl ++ "END".

Definition generate_segment_breakdown (self : t)
    (metric_name segment_type : string) : result string :=
  match get_metric (parser self) metric_name with
  | None => Raise (metric_not_found metric_name)
  | Some metric =>
    if negb (dict_truthy metric) then Raise (metric_not_found metric_name)
    else
      let metric_sql := strip (get_default "sql" "" metric) in
      let taxonomy := get_default "taxonomy" [] (taxonomy (parser self)) in
      let segments := get_default segment_type (GMap []) taxonomy in
      items <- group_items segments ;;
      let case_statement := case_statement (case_clauses items) in
      let query :=
        nl ++ sp 8 ++ "SELECT " ++
        nl ++ sp 12 ++ case_statement ++ " as segment," ++
        nl ++ sp 12 ++ "COUNT(*) as customer_count," ++
        nl ++ sp 12 ++ "ROUND(AVG(" ++ metric_sql ++ "), 2) as avg_value" ++
        nl ++ sp 8 ++ "FROM customers" ++
        nl ++ sp 8 ++ "WHERE Income IS NOT NULL" ++
        nl ++ sp 8 ++ "GROUP BY segment" ++
        nl ++ sp 8 ++ "ORDER BY avg_value DESC" ++
        nl ++ sp 8 in
      Ok (strip query)
  end.

(** [d[k]]: a missing key raises [KeyError]. *)
Definition getitem (k : string) (d : fields) : result string :=
  match get k d with
  | Some v => Ok v
  | None => Raise (KeyError k)
  end.

Definition segment_not_found : exn := ValueError "Segment not found".

Definition generate_comparison_query (self : t) (metric_name : string)
    (segment_a segment_b : fields) : result string :=
  match get_metric (parser self) metric_name with
  | None => Raise (metric_not_found metric_name)
  | Some metric =>
    if negb (dict_truthy metric) then Raise (metric_not_found metric_name)
    else
      let metric_sql := strip (get_default "sql" "" metric) in
      type_a <- getitem "type" segment_a ;;
      name_a <- getitem "name" segment_a ;;
      seg_a <- get_customer_segment (parser self) type_a name_a ;;
      type_b <- getitem "type" segment_b ;;
      name_b <- getitem "name" segment_b ;;
      seg_b <- get_customer_segment (parser self) type_b name_b ;;
      match seg_a, seg_b with
      | Some seg_a, Some seg_b =>
        if negb (node_truthy seg_a) || negb (node_truthy seg_b)
        then Raise segment_not_found
        else
          label_a <- node_get "label" seg_a ;;
          definition_a <- node_get "definition" seg_a ;;
          label_b <- node_get "label" seg_b ;;
          definition_b <- node_get "definition" seg_b ;;
          let query :=
            nl ++ sp 8 ++ "SELECT " ++
            nl ++ sp 12 ++ "'" ++ fmt label_a ++ "' as segment," ++
            nl ++ sp 12 ++ "COUNT(*) as customers," ++
            nl ++ sp 12 ++ "ROUND(AVG(" ++ metric_sql ++ "), 2) as avg_value" ++
            nl ++ sp 8 ++ "FROM customers" ++
            nl ++ sp 8 ++ "WHERE (" ++ fmt definition_a ++ ")" ++
            nl ++ sp 10 ++ "AND Income IS NOT NULL" ++
            nl ++ sp 8 ++
            nl ++ sp 8 ++ "UNION ALL" ++
            nl ++ sp 8 ++
            nl ++ sp 8 ++ "SELECT " ++
            nl ++ sp 12 ++ "'" ++ fmt label_b ++ "' as segment," ++
            nl ++ sp 12 ++ "COUNT(*) as customers," ++
            nl ++ sp 12 ++ "ROUND(AVG(" ++ metric_sql ++ "), 2) as avg_value" ++
            nl ++ sp 8 ++ "FROM customers" ++
            nl ++ sp 8 ++ "WHERE (" ++ fmt definition_b ++ ")" ++
            nl ++ sp 10 ++ "AND Income IS NOT NULL" ++
            nl ++ sp 8 in
          Ok (strip query)
      | _, _ => Raise segment_not_found
      end
  end.

End QueryGenerator.

(** ** Vocabulary for the generated statements *)

Module Shapes.
Import PyStr QueryGenerator.

(** The metric's expression string as configured (its [sql] field). *)
Definition expression (metric : fields) : string := get_default "sql" "" metric.

(** The metric's classification is [sum] or [calculated]. *)
Definition aggregated (metric : fields) : bool :=
  opt_eqb (get "type" metric) "sum" || opt_eqb (get "type" metric) "calculated".

(** The statement emitted for an aggregated metric, up to its table. *)
Definition select_avg (metric_sql : string) : string :=
  "SELECT " ++ nl ++ sp 16 ++ "AVG(" ++ metric_sql ++ ") as value" ++
  nl ++ sp 12 ++ "FROM customers".

(** The statement emitted for any other classification. *)
Definition select_raw (metric_sql : string) : string :=
  "SELECT " ++ metric_sql ++ " FROM customers".

(** The line break the template leaves between the table and an appended
    clause. *)
Definition gap : string := nl ++ sp 12 ++ nl.

(** The lookup a filter triggers: [get_customer_segment] on its type and
    name when the filter is a non-empty mapping with non-empty
    [segment_type] and [segment], no lookup otherwise. *)
Definition filter_lookup (self : QueryGenerator.t) (filters : option fields)
  : result (option node) :=
  match filters with
  | None => Ok None
  | Some f =>
    match get "segment_type" f, get "segment" f with
    | Some st, Some sn =>
      if dict_truthy f && truthy st && truthy sn
      then get_customer_segment (parser self) st sn
      else Ok None
    | _, _ => Ok None
    end
  end.

(** The entry a filter designates in the taxonomy, if its lookup returns
    one. *)
Definition filter_segment (self : QueryGenerator.t) (filters : option fields)
  : option node :=
  match filter_lookup self filters with
  | Ok found => found
  | Raise _ => None
  end.

(** The filter's lookup raises nothing and, if it designates anything,
    designates a mapping. *)
Definition filter_on_mapping (self : QueryGenerator.t) (filters : option fields)
  : bool :=
  match filter_lookup self filters with
  | Ok (Some (NScalar _)) => false
  | Ok _ => true
  | Raise _ => false
  end.

(** The clause list a filter contributes: the parenthesised definition of
    the mapping it designates, if that mapping is not empty. *)
Definition filter_clauses (self : QueryGenerator.t) (filters : option fields)
  : list string :=
  match filter_segment self filters with
  | Some (NDict (x :: d)) => ["(" ++ fmt (get "definition" (x :: d)) ++ ")"]
  | _ => []
  end.

(** The text appended after the table of an aggregated statement, given the
    clause list and whether the expression mentions [Income]. *)
Definition where_text (clauses : list string) (income : bool) : string :=
  match clauses with
  | [] => if income then gap ++ "WHERE Income IS NOT NULL" else ""
  | _ => gap ++ "WHERE " ++ join " AND " clauses ++
         (if income then nl ++ "  AND Income IS NOT NULL" else "")
  end.

(** The breakdown statement around a given CASE expression. *)
Definition breakdown_query (case_expr metric_sql : string) : string :=
  "SELECT " ++
  nl ++ sp 12 ++ case_expr ++ " as segment," ++
  nl ++ sp 12 ++ "COUNT(*) as customer_count," ++
  nl ++ sp 12 ++ "ROUND(AVG(" ++ metric_sql ++ "), 2) as avg_value" ++
  nl ++ sp 8 ++ "FROM customers" ++
  nl ++ sp 8 ++ "WHERE Income IS NOT NULL" ++
  nl ++ sp 8 ++ "GROUP BY segment" ++
  nl ++ sp 8 ++ "ORDER BY avg_value DESC".

(** Reading of the breakdown loop as a selection followed by a rendering:
    the entries that are mappings with a present, non-empty definition, each
    rendered as one WHEN branch whose label falls back to the entry's
    name. *)
Definition eligible (entry : string * node) : bool :=
  match snd entry with
  | NDict d => opt_truthy (get "definition" d)
  | NScalar _ => false
  end.

Definition when_branch (entry : string * node) : string :=
  match entry with
  | (seg_name, NDict d) =>
    "WHEN " ++ fmt (get "definition" d) ++
    " THEN '" ++ get_default "label" seg_name d ++ "'"
  | (_, NScalar _) => ""
  end.

Definition branches (segments : dict node) : list string :=
  map when_branch (filter eligible segments).

(** A CASE expression with the given WHEN branches and the one ELSE
    branch. *)
Definition case_of (whens : list string) : string :=
  "CASE" ++ nl ++ sp 4 ++ join (nl ++ sp 4) whens ++
  nl ++ sp 4 ++ "ELSE 'Other'" ++ nl ++ "END".

(** The entries the breakdown enumerates for a segment type: those of the
    mapping stored under it, none when the type is absent from the
    taxonomy; undefined when the type is bound to a null or to a scalar. *)
Definition stored_segments (self : QueryGenerator.t) (segment_type : string)
  : option (dict node) :=
  match get_default segment_type (GMap [])
                    (get_default "taxonomy" [] (taxonomy (parser self))) with
  | GMap segments => Some segments
  | GNull => None
  | GScalar _ => None
  end.




(** One SELECT block of a comparison: the label as a string literal, the
    row count, the rounded average, the parenthesised definition and the
    income guard. *)
Definition comparison_select (label metric_sql definition : string) : string :=
  "SELECT " ++
  nl ++ sp 12 ++ "'" ++ label ++ "' as segment," ++
  nl ++ sp 12 ++ "COUNT(*) as customers," ++
  nl ++ sp 12 ++ "ROUND(AVG(" ++ metric_sql ++ "), 2) as avg_value" ++
  nl ++ sp 8 ++ "FROM customers" ++
  nl ++ sp 8 ++ "WHERE (" ++ definition ++ ")" ++
  nl ++ sp 10 ++ "AND Income IS NOT NULL".

(** The text between the two blocks of a comparison. *)
Definition union_all : string :=
  nl ++ sp 8 ++ nl ++ sp 8 ++ "UNION ALL" ++ nl ++ sp 8 ++ nl ++ sp 8.

End Shapes.

(** ** Calls on a generator object *)

Module Session.
Import QueryGenerator.

(** One call of a generator method with its arguments. *)
Inductive call : Type :=
| MetricSql (metric_name : string) (filters : option fields)
| SegmentBreakdown (metric_name segment_type : string)
| ComparisonQuery (metric_name : string) (segment_a segment_b : fields).

(** A call returns its outcome and leaves the object behind.  None of the
    three methods assigns to [self], to [self.parser] or to a loaded
    document, so the object left behind is the one the call started from.
    The type serves to speak of the three generators at once. *)
Definition invoke (self : QueryGenerator.t) (c : call)
  : result string * QueryGenerator.t :=
  match c with
  | MetricSql n f => (generate_metric_sql self n f, self)
  | SegmentBreakdown n ty => (generate_segment_breakdown self n ty, self)
  | ComparisonQuery n a b => (generate_comparison_query self n a b, self)
  end.

End Session.

(** ** More of the repository: enumerating segments *)

Module Enumeration.

(** [d[k] = v] on a mapping in insertion order: an existing key keeps its
    position and takes the new value, a new key goes last. *)
Fixpoint setitem {V : Type} (k : string) (v : V) (d : dict V) : dict V :=
  match d with
  | [] => [(k, v)]
  | (k', v') :: d' =>
    if String.eqb k' k then (k', v) :: d' else (k', v') :: setitem k v d'
  end.

(** [k not in l] for a list of strings. *)
Definition not_in (k : string) (l : list string) : bool :=
  negb (existsb (String.eqb k) l).

(** [isinstance(g, dict)] *)
Definition is_dict (g : group) : bool :=
  match g with GMap _ => true | GNull => false | GScalar _ => false end.

(** [list(g.keys())] of a value that passed the [isinstance] test. *)
Definition keys (g : group) : list string :=
  match g with GMap segments => map fst segments | _ => [] end.

(** The loop of [list_all_segments] over [taxonomy.items()], threading
    [result]. *)
Fixpoint list_all_segments_loop (items : dict group)
    (result : dict (list string)) : dict (list string) :=
  match items with
  | [] => result
  | (segment_type, segments) :: rest =>
    if is_dict segments && not_in segment_type ["metadata"]
    then list_all_segments_loop rest
           (setitem segment_type (keys segments) result)
    else list_all_segments_loop rest result
  end.

Definition list_all_segments (self : SemanticLayerParser)
  : dict (list string) :=
  let taxonomy := get_default "taxonomy" [] (taxonomy self) in
  list_all_segments_loop taxonomy [].

(** The types kept by the enumeration and what is listed for each. *)
Definition kept (item : string * group) : bool :=
  is_dict (snd item) && negb (String.eqb (fst item) "metadata").

Definition listing (item : string * group) : string * list string :=
  (fst item, keys (snd item)).

End Enumeration.

(** ** The intent resolver's text handling ([LLMClient]) *)

Module LLMClient.
Import PyStr.

(** The two catalogs the client keeps; its handle on the remote model is
    not part of this development. *)
Record t : Type := {
  segments : dict (list string);
  metrics : list string
}.

(** What [__init__] stores from the repository. *)
Definition init (semantic_parser : SemanticLayerParser) : t :=
  {| segments := Enumeration.list_all_segments semantic_parser;
     metrics := list_all_metrics semantic_parser |}.

(** The double quote character. *)
Definition dq : string := String (ascii_of_nat 34) EmptyString.

(** [s[n:]] *)
Fixpoint drop (n : nat) (s : string) : string :=
  match n, s with
  | O, _ => s
  | S _, EmptyString => EmptyString
  | S k, String _ s' => drop k s'
  end.

(** [s[:n]] for [n >= 0] *)
Fixpoint take (n : nat) (s : string) : string :=
  match n, s with
  | O, _ => EmptyString
  | S _, EmptyString => EmptyString
  | S k, String c s' => String c (take k s')
  end.

(** [s[:-n]] for [n > 0]: all but the last [n] characters, nothing when
    [s] is shorter. *)
Definition drop_last (n : nat) (s : string) : string :=
  take (String.length s - n) s.

(** [s.endswith(suf)] *)
Definition endswith (suf s : string) : bool :=
  (String.length suf <=? String.length s)%nat &&
  String.eqb (drop (String.length s - String.length suf) s) suf.

Definition build_system_prompt (self : t) : string :=
  let segments_text :=
    fold_left
      (fun segments_text (item : string * list string) =>
         let (seg_type, seg_list) := item in
         segments_text ++ nl ++ "  " ++ seg_type ++ ": " ++ join ", " seg_list)
      (segments self) "" in
  let metrics_text := join (nl ++ "  ") (metrics self) in
  "You are a data analyst assistant that helps users query customer data using a semantic layer." ++ nl ++
  nl ++
  "AVAILABLE CUSTOMER SEGMENTS:" ++ segments_text ++ nl ++
  nl ++
  "AVAILABLE METRICS:" ++ nl ++
  "  " ++ metrics_text ++ nl ++
  nl ++
  "Your job is to understand the user's question and return a JSON response with:" ++ nl ++
  "{" ++ nl ++
  "  " ++ dq ++ "intent" ++ dq ++ ": " ++ dq ++ "metric_query|segment_breakdown|comparison" ++ dq ++ "," ++ nl ++
  "  " ++ dq ++ "metric" ++ dq ++ ": " ++ dq ++ "metric_name" ++ dq ++ "," ++ nl ++
  "  " ++ dq ++ "segment_type" ++ dq ++ ": " ++ dq ++ "segment_type_if_applicable" ++ dq ++ "," ++ nl ++
  "  " ++ dq ++ "segment" ++ dq ++ ": " ++ dq ++ "segment_name_if_applicable" ++ dq ++ "," ++ nl ++
  "  " ++ dq ++ "comparison" ++ dq ++ ": {" ++ dq ++ "segment_a" ++ dq ++ ": {}, " ++ dq ++ "segment_b" ++ dq ++ ": {}}" ++ nl ++
  "}" ++ nl ++
  nl ++
  "EXAMPLES:" ++ nl ++
  nl ++
  "User: " ++ dq ++ "What's average spending for parents?" ++ dq ++ nl ++
  "Response: {" ++ dq ++ "intent" ++ dq ++ ": " ++ dq ++ "metric_query" ++ dq ++ ", " ++ dq ++ "metric" ++ dq ++ ": " ++ dq ++ "total_spending" ++ dq ++ ", " ++ dq ++ "segment_type" ++ dq ++ ": " ++ dq ++ "family_status" ++ dq ++ ", " ++ dq ++ "segment" ++ dq ++ ": " ++ dq ++ "parents" ++ dq ++ "}" ++ nl ++
  nl ++
  "User: " ++ dq ++ "Show me CLV by age group" ++ dq ++ nl ++
  "Response: {" ++ dq ++ "intent" ++ dq ++ ": " ++ dq ++ "segment_breakdown" ++ dq ++ ", " ++ dq ++ "metric" ++ dq ++ ": " ++ dq ++ "customer_lifetime_value" ++ dq ++ ", " ++ dq ++ "segment_type" ++ dq ++ ": " ++ dq ++ "customer_age_segments" ++ dq ++ "}" ++ nl ++
  nl ++
  "User: " ++ dq ++ "Compare spending for parents vs no children" ++ dq ++ nl ++
  "Response: {" ++ dq ++ "intent" ++ dq ++ ": " ++ dq ++ "comparison" ++ dq ++ ", " ++ dq ++ "metric" ++ dq ++ ": " ++ dq ++ "total_spending" ++ dq ++ ", " ++ dq ++ "comparison" ++ dq ++ ": {" ++ dq ++ "segment_a" ++ dq ++ ": {" ++ dq ++ "type" ++ dq ++ ": " ++ dq ++ "family_status" ++ dq ++ ", " ++ dq ++ "name" ++ dq ++ ": " ++ dq ++ "parents" ++ dq ++ "}, " ++ dq ++ "segment_b" ++ dq ++ ": {" ++ dq ++ "type" ++ dq ++ ": " ++ dq ++ "family_status" ++ dq ++ ", " ++ dq ++ "name" ++ dq ++ ": " ++ dq ++ "no_children" ++ dq ++ "}}}" ++ nl ++
  nl ++
  "IMPORTANT: " ++ nl ++
  "- Return ONLY valid JSON, no other text" ++ nl ++
  "- Use exact metric and segment names from the available lists" ++ nl.

(** One line of the segment catalog in the prompt. *)
Definition segment_line (item : string * list string) : string :=
  nl ++ "  " ++ fst item ++ ": " ++ join ", " (snd item).

(** The step of the loop of [build_system_prompt] that extends
    [segments_text]. *)
Definition add_segment_line (segments_text : string)
    (item : string * list string) : string :=
  let (seg_type, seg_list) := item in
  segments_text ++ nl ++ "  " ++ seg_type ++ ": " ++ join ", " seg_list.

(** The text does not begin with a backtick (and is not empty). *)
Definition starts_plain (s : string) : bool :=
  match s with
  | EmptyString => false
  | String c _ => negb (Ascii.eqb c "`")
  end.

(** The text [parse_question] sends to the model. *)
Definition full_prompt (self : t) (question : string) : string :=
  build_system_prompt self ++ nl ++ nl ++ "User question: " ++ question ++
  nl ++ nl ++ "Response (JSON only):".

(** The block of [parse_question] between the model's answer and
    [json.loads]: the answer is stripped, relieved of a leading
    [```json] fence, of a leading [```] fence and of a trailing [```]
    fence, in that order, and stripped again. *)
Definition response_json_text (text : string) : string :=
  let response_text := strip text in
  let response_text :=
    if startswith "```json" response_text
    then drop 7 response_text else response_text in
  let response_text :=
    if startswith "```" response_text
    then drop 3 response_text else response_text in
  let response_text :=
    if endswith "```" response_text
    then drop_last 3 response_text else response_text in
  strip response_text.

End LLMClient.

(** ** A repository with a [metadata] block, a scalar entry, and segment
    types bound to a null and to a scalar *)

Module Demo.

Definition repo : SemanticLayerParser := {|
  taxonomy :=
    [("taxonomy",
      [("metadata", GMap [("version", NScalar "1.0")]);
       ("family_status",
        GMap [("description", NScalar "Household composition");
              ("parents", NDict [("definition", "Kidhome + Teenhome > 0");
                                 ("label", "Parents")]);
              ("no_children", NDict [("definition", "Kidhome + Teenhome = 0");
                                     ("label", "No Children")])]);
       ("pending", GNull);
       ("notes", GScalar "segments to be agreed");
       ("value_tiers",
        GMap [("high_value", NDict [("definition", "Income > 75000");
                                    ("label", "High Value")])])])];
  metadata := [("columns", [("Income", [("display_name", "Income")])])];
  metrics :=
    [("metrics",
      [[("name", "total_spending"); ("type", "sum");
        ("sql", "MntWines + MntFruits")];
       [("label", "An entry without a name")];
       [("name", "customer_lifetime_value"); ("type", "calculated");
        ("sql", "MntWines * 12 / Income")]])]
|}.

Definition generator : QueryGenerator.t := {| QueryGenerator.parser := repo |}.

End Demo.

(** ** A sample repository

    Two segments under [family_status], a placeholder entry without a
    definition under [loyalty], a type without entries, and metrics of each
    classification. *)

Module Sample.
Import QueryGenerator.

Definition parents : fields :=
  [("definition", "Kidhome + Teenhome > 0"); ("label", "Parents")].

Definition no_children : fields :=
  [("definition", "Kidhome + Teenhome = 0"); ("label", "No Children")].

Definition repo : SemanticLayerParser := {|
  taxonomy :=
    [("taxonomy",
      [("family_status",
        GMap [("parents", NDict parents); ("no_children", NDict no_children)]);
       ("loyalty",
        GMap [("member", NDict [("definition", "NumWebVisitsMonth > 5");
                                ("label", "Member")]);
              ("unknown", NDict [("label", "Unknown")])]);
       ("empty_type", GMap [])])];
  metadata := [];
  metrics :=
    [("metrics",
      [[("name", "total_spending"); ("label", "Total Spending");
        ("type", "sum"); ("sql", "MntWines + MntFruits")];
       [("name", "income_share"); ("label", "Income Share");
        ("type", "calculated"); ("sql", "MntWines / Income")];
       [("name", "income"); ("label", "Income");
        ("type", "raw"); ("sql", "Income")];
       [("name", "recency"); ("label", "Recency");
        ("type", "raw"); ("sql", "Recency")]])]
|}.

Definition generator : QueryGenerator.t := {| parser := repo |}.

(** A catalog in which two entries share the name [income]. *)
Definition duplicated : SemanticLayerParser := {|
  taxonomy := [];
  metadata := [];
  metrics :=
    [("metrics",
      [[("name", "total_spending"); ("type", "sum"); ("sql", "MntWines")];
       [("name", "income"); ("type", "raw"); ("sql", "Income")];
       [("name", "income"); ("type", "sum"); ("sql", "Income + 0")]])]
|}.

Definition parents_filter : fields :=
  [("segment_type", "family_status"); ("segment", "parents")].

Definition typo_filter : fields :=
  [("segment_type", "family_status"); ("segment", "parentz")].

Definition parents_ref : fields :=
  [("type", "family_status"); ("name", "parents")].

Definition no_children_ref : fields :=
  [("type", "family_status"); ("name", "no_children")].

End Sample.

(** ** Facts about the string primitives *)

Module PyStrFacts.
Import PyStr.

Lemma append_assoc (a b c : string) : (a ++ b) ++ c = a ++ (b ++ c).
Proof. induction a as [|x a IH]; simpl; [reflexivity | now rewrite IH]. Qed.

Lemma append_nil_r (a : string) : a ++ "" = a.
Proof. induction a as [|x a IH]; simpl; [reflexivity | now rewrite IH]. Qed.

Lemma append_eq_nil (a b : string) : a ++ b = "" -> a = "" /\ b = "".
Proof. destruct a; simpl; [auto | discriminate]. Qed.

(** *** Stripping *)

Lemma rstrip_cons (c : ascii) (s : string) :
  rstrip s <> "" -> rstrip (String c s) = String c (rstrip s).
Proof. simpl; destruct (rstrip s); [congruence | reflexivity]. Qed.

Lemma rstrip_cons_nonspace (c : ascii) (s : string) :
  isspace c = false -> rstrip (String c s) = String c (rstrip s).
Proof. intros Hc; simpl; rewrite Hc; destruct (rstrip s); reflexivity. Qed.

Lemma rstrip_app (a b : string) :
  rstrip b <> "" -> rstrip (a ++ b) = a ++ rstrip b.
Proof.
  intros Hb; induction a as [|x a IH]; simpl append; [reflexivity|].
  rewrite rstrip_cons; rewrite IH; [reflexivity|].
  destruct a; simpl; [assumption | discriminate].
Qed.

Lemma rstrip_app_blank (a b : string) :
  rstrip b = "" -> rstrip (a ++ b) = rstrip a.
Proof.
  intros Hb; induction a as [|x a IH]; simpl; [assumption | now rewrite IH].
Qed.

Lemma rstrip_decomp (s : string) : exists w, s = rstrip s ++ w.
Proof.
  induction s as [|c s [w IH]]; [exists ""; reflexivity|].
  simpl; destruct (rstrip s) eqn:E.
  - destruct (isspace c).
    + exists (String c s); reflexivity.
    + exists w; simpl in *; congruence.
  - exists w; simpl in *; congruence.
Qed.

Lemma lstrip_decomp (s : string) : exists w, s = w ++ lstrip s.
Proof.
  induction s as [|c s [w IH]]; [exists ""; reflexivity|].
  simpl; destruct (isspace c).
  - exists (String c w); simpl; congruence.
  - exists ""; reflexivity.
Qed.

Lemma strip_decomp (s : string) : exists w1 w2, s = w1 ++ strip s ++ w2.
Proof.
  destruct (lstrip_decomp s) as [w1 H1].
  destruct (rstrip_decomp (lstrip s)) as [w2 H2].
  exists w1, w2; unfold strip; congruence.
Qed.

Lemma lstrip_id (s : string) : head_visible s = true -> lstrip s = s.
Proof.
  destruct s as [|c s]; [discriminate|]; simpl; intros H.
  apply negb_true_iff in H; now rewrite H.
Qed.

Lemma rstrip_id (s : string) : last_visible s = true -> rstrip s = s.
Proof.
  induction s as [|c s IH]; [discriminate|]; intros H.
  destruct s as [|d s].
  - simpl in *; apply negb_true_iff in H; now rewrite H.
  - rewrite rstrip_cons; rewrite (IH H); [reflexivity | discriminate].
Qed.

Lemma last_visible_app (a b : string) :
  last_visible b = true -> last_visible (a ++ b) = true.
Proof.
  intros H; induction a as [|c a IH]; [exact H|].
  simpl append; cbn [last_visible]; rewrite IH.
  destruct (a ++ b) eqn:E; [|reflexivity].
  apply append_eq_nil in E as [_ ->]; discriminate.
Qed.

Lemma head_visible_app (a b : string) :
  head_visible a = true -> head_visible (a ++ b) = true.
Proof. destruct a; [discriminate | exact (fun H => H)]. Qed.

Lemma lstrip_app_blank (w s : string) :
  lstrip w = "" -> lstrip (w ++ s) = lstrip s.
Proof.
  induction w as [|c w IH]; [reflexivity|]; simpl.
  destruct (isspace c); [exact IH | discriminate].
Qed.

(** Blank margins around a text that starts and ends with a visible
    character are exactly what [strip] removes. *)
Lemma strip_sandwich (w core w' : string) :
  lstrip w = "" -> rstrip w' = "" ->
  head_visible core = true -> last_visible core = true ->
  strip (w ++ core ++ w') = core.
Proof.
  intros Hw Hw' Hh Hl; unfold strip.
  rewrite lstrip_app_blank by assumption.
  rewrite lstrip_id by now apply head_visible_app.
  rewrite rstrip_app_blank by assumption.
  now apply rstrip_id.
Qed.

Lemma strip_left_margin (w core : string) :
  lstrip w = "" -> head_visible core = true -> last_visible core = true ->
  strip (w ++ core) = core.
Proof.
  intros Hw Hh Hl; rewrite <- (append_nil_r core) at 1.
  now apply strip_sandwich.
Qed.

Lemma strip_visible (core : string) :
  head_visible core = true -> last_visible core = true -> strip core = core.
Proof. intros Hh Hl; now apply (strip_left_margin "" core). Qed.

(** Closes [last_visible (a ++ ... ++ z) = true] when the last piece ends
    with a visible character. *)
Ltac visible_end :=
  repeat apply last_visible_app; try reflexivity; try assumption.

(** *** Substring tests *)

Lemma startswith_spec (sub s : string) :
  startswith sub s = true <-> exists post, s = sub ++ post.
Proof.
  revert s; induction sub as [|a sub IH]; intros s; simpl.
  - split; [exists s; reflexivity | reflexivity].
  - destruct s as [|b s]; [split; [discriminate | intros [? ?]; discriminate]|].
    rewrite andb_true_iff, Ascii.eqb_eq, IH; split.
    + intros [-> [post ->]]; exists post; reflexivity.
    + intros [post H]; injection H as -> ->; split; [reflexivity | now exists post].
Qed.

Lemma is_in_spec (sub s : string) : is_in sub s = true <-> Substring sub s.
Proof.
  unfold Substring; induction s as [|c s IH].
  - simpl; rewrite orb_false_r, startswith_spec; split.
    + intros [post H]; exists "", post; assumption.
    + intros [pre [post H]]; symmetry in H.
      apply append_eq_nil in H as [-> H]; exists post; now rewrite H.
  - simpl; rewrite orb_true_iff, startswith_spec, IH; split.
    + intros [[post H] | [pre [post H]]].
      * exists "", post; assumption.
      * exists (String c pre), post; simpl; congruence.
    + intros [[|x pre] [post H]].
      * left; exists post; assumption.
      * right; exists pre, post; simpl in H; congruence.
Qed.

Lemma Substring_app (sub a s b : string) :
  Substring sub s -> Substring sub (a ++ s ++ b).
Proof.
  intros [pre [post ->]]; exists (a ++ pre), (post ++ b).
  now rewrite !append_assoc.
Qed.

(** A needle that starts and ends with a visible character is found in
    [s.strip()] exactly when it is found in [s]. *)
Lemma is_in_lstrip (sub s : string) :
  head_visible sub = true -> is_in sub (lstrip s) = is_in sub s.
Proof.
  destruct sub as [|a sub]; [discriminate|]; simpl; intros Ha.
  induction s as [|c s IH]; [reflexivity|].
  cbn [lstrip]; destruct (isspace c) eqn:Hc; [|reflexivity].
  rewrite IH; cbn [is_in startswith].
  destruct (Ascii.eqb_spec a c) as [->|_]; [|reflexivity].
  rewrite Hc in Ha; discriminate.
Qed.

Lemma rstrip_keeps_visible_end (sub post : string) :
  last_visible sub = true -> exists post', rstrip (sub ++ post) = sub ++ post'.
Proof.
  induction sub as [|a sub IH]; [discriminate|]; intros H.
  destruct sub as [|b sub].
  - simpl in H; apply negb_true_iff in H.
    exists (rstrip post); simpl append; now apply rstrip_cons_nonspace.
  - destruct (IH H) as [post' E]; exists post'.
    change (String a (String b sub) ++ post) with (String a (String b sub ++ post)).
    rewrite rstrip_cons; rewrite E; [reflexivity | discriminate].
Qed.

Lemma Substring_rstrip (sub s : string) :
  last_visible sub = true -> Substring sub s -> Substring sub (rstrip s).
Proof.
  intros Hv [pre [post ->]].
  destruct (rstrip_keeps_visible_end sub post Hv) as [post' E].
  exists pre, post'; rewrite rstrip_app; rewrite E; [reflexivity|].
  destruct sub; [discriminate | discriminate].
Qed.

Lemma is_in_strip (sub s : string) :
  head_visible sub = true -> last_visible sub = true ->
  is_in sub (strip s) = is_in sub s.
Proof.
  intros Hh Hl; apply eq_true_iff_eq; rewrite !is_in_spec; split.
  - intros H; destruct (strip_decomp s) as [w1 [w2 E]]; rewrite E.
    now apply Substring_app.
  - intros H; unfold strip; apply Substring_rstrip; [assumption|].
    apply is_in_spec; rewrite is_in_lstrip by assumption; now apply is_in_spec.
Qed.

(** *** Counting occurrences *)

Lemma occurrences_skip_prefix (a : ascii) (sub' pre s : string) :
  mem_char a pre = false ->
  occurrences (String a sub') (pre ++ s) = occurrences (String a sub') s.
Proof.
  induction pre as [|c pre IH]; [reflexivity|]; cbn [mem_char]; intros H.
  apply orb_false_iff in H as [Hc H].
  simpl append; cbn [occurrences startswith].
  rewrite Ascii.eqb_sym, Hc, (IH H); reflexivity.
Qed.

Lemma startswith_app_foreign (sub y tail : string) :
  sub <> "" -> foreign_head sub tail = true ->
  startswith sub (y ++ tail) = startswith sub y.
Proof.
  revert y; induction sub as [|a sub IH]; intros y Hne Hf; [congruence|].
  destruct y as [|b y]; simpl append.
  - destruct tail as [|t tail]; [reflexivity|]; simpl in *.
    apply negb_true_iff, orb_false_iff in Hf as [-> _]; reflexivity.
  - cbn [startswith]; destruct sub as [|a' sub]; [reflexivity|].
    rewrite IH; [reflexivity | discriminate |].
    destruct tail as [|t tail]; [reflexivity|].
    cbn [foreign_head mem_char] in *.
    apply negb_true_iff, orb_false_iff in Hf as [_ Hf].
    now apply negb_true_iff.
Qed.

Lemma occurrences_app (sub x tail : string) :
  sub <> "" -> foreign_head sub tail = true ->
  occurrences sub (x ++ tail) = occurrences sub x + occurrences sub tail.
Proof.
  intros Hne Hf; induction x as [|c x IH].
  - destruct sub; [congruence | reflexivity].
  - change (String c x ++ tail) with (String c (x ++ tail)).
    cbn [occurrences]; rewrite IH.
    change (String c (x ++ tail)) with (String c x ++ tail).
    rewrite startswith_app_foreign by assumption; lia.
Qed.

Lemma occurrences_cons_other (sub : string) (a c : ascii) (sub' s : string) :
  sub = String a sub' -> Ascii.eqb a c = false ->
  occurrences sub (String c s) = occurrences sub s.
Proof. intros -> H; cbn [occurrences startswith]; now rewrite H. Qed.

End PyStrFacts.


(** ** The repository's lookups *)

Module RepositoryFacts.

Lemma get_cons_nonempty {V : Type} (k : string) (d : dict V) (v : V) :
  get k d = Some v -> dict_truthy d = true.
Proof. destruct d; [discriminate | reflexivity]. Qed.

Lemma find_metric_name (metric_name : string) (l : list fields) (m : fields) :
  find_metric metric_name l = Some m -> get "name" m = Some metric_name.
Proof.
  induction l as [|x l IH]; simpl; [discriminate|].
  destruct (get "name" x) as [n|] eqn:E; [|exact IH].
  destruct (String.eqb_spec n metric_name) as [->|_]; [|exact IH].
  intros [= <-]; exact E.
Qed.

Lemma find_metric_skip (metric_name : string) (x : fields) (l : list fields) :
  get "name" x <> Some metric_name ->
  find_metric metric_name (x :: l) = find_metric metric_name l.
Proof.
  simpl; destruct (get "name" x) as [n|]; [|reflexivity].
  destruct (String.eqb_spec n metric_name) as [->|_]; [congruence | reflexivity].
Qed.

Lemma find_metric_hit (metric_name : string) (x : fields) (l : list fields) :
  get "name" x = Some metric_name ->
  find_metric metric_name (x :: l) = Some x.
Proof. simpl; intros ->; now rewrite String.eqb_refl. Qed.

Lemma name_dec (metric_name : string) (x : fields) :
  {get "name" x = Some metric_name} + {get "name" x <> Some metric_name}.
Proof.
  destruct (get "name" x) as [n|]; [|right; discriminate].
  destruct (string_dec n metric_name) as [->|H]; [left | right]; congruence.
Qed.

(** [find_metric] returns [m] exactly when [m] is the first entry of the
    list that carries the queried name. *)
Lemma find_metric_first (metric_name : string) (l : list fields) (m : fields) :
  find_metric metric_name l = Some m <->
  exists before after,
    l = (before ++ m :: after)%list /\
    get "name" m = Some metric_name /\
    Forall (fun m' => get "name" m' <> Some metric_name) before.
Proof.
  induction l as [|x l IH].
  - split; [discriminate | intros [[|? ?] [? [? _]]]; discriminate].
  - destruct (name_dec metric_name x) as [Hx|Hx].
    + rewrite (find_metric_hit _ _ _ Hx); split.
      * intros [= <-]; exists [], l; auto.
      * intros [[|y before] [after [E [Hm Hb]]]]; injection E as -> ->.
        -- reflexivity.
        -- inversion Hb; contradiction.
    + rewrite (find_metric_skip _ _ _ Hx), IH; split.
      * intros [before [after [-> [Hm Hb]]]].
        exists (x :: before), after; auto.
      * intros [[|y before] [after [E [Hm Hb]]]]; injection E as -> ->.
        -- contradiction.
        -- inversion Hb; exists before, after; auto.
Qed.

Lemma find_metric_none (metric_name : string) (l : list fields) :
  find_metric metric_name l = None <->
  Forall (fun m' => get "name" m' <> Some metric_name) l.
Proof.
  induction l as [|x l IH]; [split; auto|].
  destruct (name_dec metric_name x) as [Hx|Hx].
  - rewrite (find_metric_hit _ _ _ Hx); split; [discriminate|].
    intros H; inversion H; contradiction.
  - rewrite (find_metric_skip _ _ _ Hx), IH; split.
    + auto.
    + intros H; now inversion H.
Qed.

Lemma get_metric_truthy (self : SemanticLayerParser) (n : string) (m : fields) :
  get_metric self n = Some m -> dict_truthy m = true.
Proof.
  intros H; apply find_metric_name in H; now apply get_cons_nonempty in H.
Qed.

(** C10. [get_metric] returns the first entry of the configured metric list
    whose [name] field equals the queried name; it returns [None] exactly
    when no entry carries that name; of two entries sharing the name, the
    earlier one is returned. *)
Theorem get_metric_first_match (self : SemanticLayerParser) (metric_name : string) :
  let metrics_list := get_default "metrics" [] (metrics self) in
  (forall m,
      get_metric self metric_name = Some m <->
      exists before after,
        metrics_list = (before ++ m :: after)%list /\
        get "name" m = Some metric_name /\
        Forall (fun m' => get "name" m' <> Some metric_name) before) /\
  (get_metric self metric_name = None <->
   Forall (fun m' => get "name" m' <> Some metric_name) metrics_list) /\
  (forall before m1 between m2 after,
      metrics_list = (before ++ m1 :: between ++ m2 :: after)%list ->
      Forall (fun m' => get "name" m' <> Some metric_name) before ->
      get "name" m1 = Some metric_name ->
      get "name" m2 = Some metric_name ->
      get_metric self metric_name = Some m1).
Proof.
  cbv zeta; unfold get_metric; repeat split.
  - now apply find_metric_first.
  - now apply find_metric_first.
  - now apply find_metric_none.
  - now apply find_metric_none.
  - intros before m1 between m2 after E Hb H1 _.
    apply find_metric_first; exists before, (between ++ m2 :: after)%list; auto.
Qed.

(** Of the two [income] entries of [Sample.duplicated], the earlier one is
    found. *)
Example get_metric_duplicate :
  get_metric Sample.duplicated "income" =
  Some [("name", "income"); ("type", "raw"); ("sql", "Income")].
Proof. reflexivity. Qed.

End RepositoryFacts.


(** ** The point-metric generator *)

Module MetricSqlFacts.
Import PyStr PyStrFacts QueryGenerator Shapes RepositoryFacts.

Lemma build_where_clauses_spec (self : t) (filters : option fields) :
  build_where_clauses self filters =
  match filter_lookup self filters with
  | Raise e => Raise e
  | Ok (Some (NScalar (String _ _))) => Raise str_no_get
  | Ok _ => Ok (filter_clauses self filters)
  end.
Proof.
  unfold build_where_clauses, filter_clauses, filter_segment, filter_lookup.
  destruct filters as [f|]; [|reflexivity].
  destruct (dict_truthy f), (get "segment_type" f) as [st|],
    (get "segment" f) as [sn|]; try reflexivity.
  cbn [andb]; destruct (truthy st && truthy sn); [|reflexivity].
  destruct (get_customer_segment _ _ _) as [[[[|c s]|[|x d]]|]|e]; reflexivity.
Qed.

Lemma build_where_clauses_mapping (self : t) (filters : option fields) :
  filter_on_mapping self filters = true ->
  build_where_clauses self filters = Ok (filter_clauses self filters).
Proof.
  unfold filter_on_mapping; rewrite build_where_clauses_spec.
  destruct (filter_lookup self filters) as [[[[|c s]|d]|]|e]; congruence.
Qed.

Lemma get_customer_segment_map (self : SemanticLayerParser) (ty name : string)
    (segments : dict node) :
  get ty (get_default "taxonomy" [] (taxonomy self)) = Some (GMap segments) ->
  get_customer_segment self ty name = Ok (get name segments).
Proof.
  intros H; unfold get_customer_segment; cbv zeta.
  set (tax := get_default "taxonomy" [] (taxonomy self)) in *.
  unfold get_default, dict in *; rewrite H.
  cbn [group_contains bind group_getitem]; now destruct (get name segments).
Qed.

(** The lookup fails in one way only: on a type bound to a null, or bound
    to a scalar that contains the name. *)
Lemma get_customer_segment_raises (self : SemanticLayerParser)
    (ty name : string) (e : exn) :
  get_customer_segment self ty name = Raise e -> e = TypeError.
Proof.
  unfold get_customer_segment; cbv zeta.
  destruct (get_default ty (GMap []) _) as [segments| |s];
    cbn [group_contains bind group_getitem].
  - destruct (get name segments); discriminate.
  - now intros [= <-].
  - destruct (is_in name s); [now intros [= <-] | discriminate].
Qed.

Lemma generate_metric_sql_resolved (self : t) (n : string) (m : fields)
    (filters : option fields) :
  get_metric (parser self) n = Some m ->
  generate_metric_sql self n filters = metric_sql_body self m filters.
Proof.
  intros H; unfold generate_metric_sql; rewrite H.
  now rewrite (get_metric_truthy _ _ _ H).
Qed.

Lemma strip_template (e : string) :
  strip (nl ++ sp 12 ++ "SELECT " ++
         nl ++ sp 16 ++ ("AVG(" ++ e ++ ") as value") ++
         nl ++ sp 12 ++ "FROM customers" ++ nl ++ sp 12) = select_avg e.
Proof.
  transitivity (strip ((nl ++ sp 12) ++ select_avg e ++ (nl ++ sp 12))).
  - f_equal; unfold select_avg; rewrite !append_assoc; reflexivity.
  - apply strip_sandwich; try reflexivity; unfold select_avg; visible_end.
Qed.

Lemma strip_template_app (e rest : string) :
  last_visible rest = true ->
  strip ((nl ++ sp 12 ++ "SELECT " ++
          nl ++ sp 16 ++ ("AVG(" ++ e ++ ") as value") ++
          nl ++ sp 12 ++ "FROM customers" ++ nl ++ sp 12) ++ nl ++ rest)
  = select_avg e ++ gap ++ rest.
Proof.
  intros H.
  transitivity (strip ((nl ++ sp 12) ++ (select_avg e ++ gap ++ rest))).
  - f_equal; unfold select_avg, gap; rewrite !append_assoc; reflexivity.
  - apply strip_left_margin; try reflexivity; visible_end.
Qed.

Lemma strip_select_raw (e : string) : strip (select_raw e) = select_raw e.
Proof. apply strip_visible; [reflexivity | unfold select_raw; visible_end]. Qed.

Lemma body_no_clause (e : string) (income : bool) :
  strip (if income
         then (nl ++ sp 12 ++ "SELECT " ++
               nl ++ sp 16 ++ ("AVG(" ++ e ++ ") as value") ++
               nl ++ sp 12 ++ "FROM customers" ++ nl ++ sp 12)
              ++ nl ++ "WHERE Income IS NOT NULL"
         else nl ++ sp 12 ++ "SELECT " ++
              nl ++ sp 16 ++ ("AVG(" ++ e ++ ") as value") ++
              nl ++ sp 12 ++ "FROM customers" ++ nl ++ sp 12)
  = select_avg e ++ where_text [] income.
Proof.
  destruct income; cbn [where_text].
  - now apply strip_template_app.
  - rewrite append_nil_r; apply strip_template.
Qed.

Lemma body_one_clause (e c : string) (income : bool) :
  last_visible c = true ->
  strip (if income
         then ((nl ++ sp 12 ++ "SELECT " ++
                nl ++ sp 16 ++ ("AVG(" ++ e ++ ") as value") ++
                nl ++ sp 12 ++ "FROM customers" ++ nl ++ sp 12)
               ++ nl ++ "WHERE " ++ join " AND " [c])
              ++ nl ++ "  AND Income IS NOT NULL"
         else (nl ++ sp 12 ++ "SELECT " ++
               nl ++ sp 16 ++ ("AVG(" ++ e ++ ") as value") ++
               nl ++ sp 12 ++ "FROM customers" ++ nl ++ sp 12)
              ++ nl ++ "WHERE " ++ join " AND " [c])
  = select_avg e ++ where_text [c] income.
Proof.
  intros Hc; destruct income; cbn [where_text join String.concat].
  - rewrite (append_assoc _ (nl ++ "WHERE " ++ c)).
    change ((nl ++ "WHERE " ++ c) ++ nl ++ "  AND Income IS NOT NULL")
      with (nl ++ ("WHERE " ++ c) ++ nl ++ "  AND Income IS NOT NULL").
    rewrite (append_assoc "WHERE " c).
    apply strip_template_app; visible_end.
  - rewrite append_nil_r; apply strip_template_app; visible_end.
Qed.

(** The whole of [generate_metric_sql] once the metric is resolved and the
    filter does not designate a scalar. *)
Lemma metric_sql_body_shape (self : t) (m : fields) (filters : option fields) :
  filter_on_mapping self filters = true ->
  metric_sql_body self m filters =
  Ok (if aggregated m
      then select_avg (strip (expression m)) ++
           where_text (filter_clauses self filters)
                      (is_in "Income" (strip (expression m)))
      else select_raw (strip (expression m))).
Proof.
  intros Hf; unfold metric_sql_body.
  rewrite (build_where_clauses_mapping _ _ Hf); cbn [bind].
  fold (expression m); fold (aggregated m).
  destruct (aggregated m); [|now rewrite <- strip_select_raw].
  f_equal; unfold filter_clauses.
  destruct (filter_segment self filters) as [[s|[|x d]]|]; cbn [list_truthy].
  - apply body_no_clause.
  - apply body_no_clause.
  - apply body_one_clause; visible_end.
  - apply body_no_clause.
Qed.

Lemma filter_lookup_named (self : t) (f : fields) (st sn : string) :
  get "segment_type" f = Some st -> get "segment" f = Some sn ->
  filter_lookup self (Some f) =
  if truthy st && truthy sn
  then get_customer_segment (parser self) st sn else Ok None.
Proof.
  intros Ht Hn; unfold filter_lookup.
  rewrite (get_cons_nonempty _ _ _ Ht), Ht, Hn; reflexivity.
Qed.

(** The branch for aggregated metrics does apply a resolved filter: the
    statement carries the segment's definition in parentheses after
    [WHERE]. *)
Lemma filter_applied_when_aggregated (self : t) (n : string) (m f d : fields)
    (st sn def : string) :
  get_metric (parser self) n = Some m -> aggregated m = true ->
  get "segment_type" f = Some st -> truthy st = true ->
  get "segment" f = Some sn -> truthy sn = true ->
  get_customer_segment (parser self) st sn = Ok (Some (NDict d)) ->
  get "definition" d = Some def ->
  generate_metric_sql self n (Some f) =
  Ok (select_avg (strip (expression m)) ++ gap ++ "WHERE " ++ ("(" ++ def ++ ")") ++
      (if is_in "Income" (strip (expression m))
       then nl ++ "  AND Income IS NOT NULL" else "")).
Proof.
  intros Hm Ha Ht Hst Hn Hsn Hseg Hdef.
  assert (Hfs : filter_lookup self (Some f) = Ok (Some (NDict d)))
    by now rewrite (filter_lookup_named _ _ _ _ Ht Hn), Hst, Hsn.
  rewrite (generate_metric_sql_resolved _ _ _ _ Hm), metric_sql_body_shape
    by (unfold filter_on_mapping; now rewrite Hfs).
  rewrite Ha; unfold filter_clauses, filter_segment; rewrite Hfs.
  destruct d as [|x d]; [discriminate|]; rewrite Hdef; reflexivity.
Qed.

(** C1 (defect of the code).  The specification asks that, whenever metric
    and segment both resolve, the statement carries the segment's definition
    in parentheses after [WHERE].  For a metric that is neither [sum] nor
    [calculated] the generator builds the clause and then discards it: here
    [recency] and [family_status]/[parents] both resolve, the clause list
    holds the parenthesised definition, and the statement returned has no
    [WHERE] and no trace of the definition, while the same filter on the
    [sum] metric [total_spending] is applied. *)
Theorem filter_dropped_for_raw_metric :
  get_metric Sample.repo "recency" =
    Some [("name", "recency"); ("label", "Recency");
          ("type", "raw"); ("sql", "Recency")] /\
  get_customer_segment Sample.repo "family_status" "parents" =
    Ok (Some (NDict Sample.parents)) /\
  get "definition" Sample.parents = Some "Kidhome + Teenhome > 0" /\
  build_where_clauses Sample.generator (Some Sample.parents_filter) =
    Ok ["(Kidhome + Teenhome > 0)"] /\
  generate_metric_sql Sample.generator "recency" (Some Sample.parents_filter) =
    Ok "SELECT Recency FROM customers" /\
  is_in "WHERE" "SELECT Recency FROM customers" = false /\
  is_in "(Kidhome + Teenhome > 0)" "SELECT Recency FROM customers" = false /\
  generate_metric_sql Sample.generator "total_spending"
                      (Some Sample.parents_filter) =
    Ok (select_avg "MntWines + MntFruits" ++ gap ++
        "WHERE (Kidhome + Teenhome > 0)").
Proof. repeat split; vm_compute; reflexivity. Qed.

(** C2 (defect of the code).  The specification asks for an
    [UnknownSegment] error when the filter's pair does not resolve.  The generator raises nothing:
    for a resolvable metric it returns a statement, the very one it returns
    when no filter is given. *)
Theorem unknown_segment_filter_ignored (self : t) (n : string) (m f : fields)
    (st sn : string) :
  get_metric (parser self) n = Some m ->
  get "segment_type" f = Some st -> get "segment" f = Some sn ->
  get_customer_segment (parser self) st sn = Ok None ->
  (exists sql, generate_metric_sql self n (Some f) = Ok sql) /\
  generate_metric_sql self n (Some f) = generate_metric_sql self n None.
Proof.
  intros Hm Ht Hn Hseg.
  assert (Hfs : filter_lookup self (Some f) = Ok None).
  { rewrite (filter_lookup_named _ _ _ _ Ht Hn), Hseg.
    now destruct (truthy st && truthy sn). }
  rewrite !(generate_metric_sql_resolved _ _ _ _ Hm).
  rewrite !metric_sql_body_shape
    by (unfold filter_on_mapping; now rewrite ?Hfs).
  unfold filter_clauses, filter_segment; rewrite Hfs.
  split; [eexists|]; reflexivity.
Qed.

Lemma unknown_segment_filter_ignored_witness :
  (exists sql,
      generate_metric_sql Sample.generator "total_spending"
                          (Some Sample.typo_filter) = Ok sql) /\
  generate_metric_sql Sample.generator "total_spending" (Some Sample.typo_filter)
  = generate_metric_sql Sample.generator "total_spending" None.
Proof.
  apply (unknown_segment_filter_ignored Sample.generator "total_spending"
           [("name", "total_spending"); ("label", "Total Spending");
            ("type", "sum"); ("sql", "MntWines + MntFruits")]
           Sample.typo_filter "family_status" "parentz"); reflexivity.
Defined.

(** *** Counting [WHERE] in the emitted statements *)

Lemma occurrences_select_avg (e tail : string) (k : nat) :
  foreign_head "WHERE" tail = true ->
  occurrences "WHERE" tail = k ->
  occurrences "WHERE" ("SELECT " ++ nl ++ sp 16 ++ "AVG(" ++ e ++ tail)
  = occurrences "WHERE" e + k.
Proof.
  intros Hf <-.
  change ("SELECT " ++ nl ++ sp 16 ++ "AVG(" ++ e ++ tail)
    with (("SELECT " ++ nl ++ sp 16 ++ "AVG(") ++ e ++ tail).
  rewrite occurrences_skip_prefix by reflexivity.
  apply occurrences_app; [discriminate | assumption].
Qed.

Lemma occurrences_where_select_avg (e : string) :
  occurrences "WHERE" (select_avg e) = occurrences "WHERE" e.
Proof.
  unfold select_avg; rewrite (occurrences_select_avg e _ 0); auto.
Qed.

Lemma occurrences_where_select_avg_income (e : string) :
  occurrences "WHERE" (select_avg e ++ gap ++ "WHERE Income IS NOT NULL")
  = occurrences "WHERE" e + 1.
Proof.
  unfold select_avg; rewrite !append_assoc.
  rewrite (occurrences_select_avg e _ 1); auto.
Qed.

Lemma occurrences_where_select_raw (e : string) :
  occurrences "WHERE" (select_raw e) = occurrences "WHERE" e.
Proof.
  unfold select_raw.
  rewrite (occurrences_skip_prefix _ _ "SELECT ") by reflexivity.
  rewrite occurrences_app by (discriminate || reflexivity).
  change (occurrences "WHERE" " FROM customers") with 0; lia.
Qed.

(** C3 (counterexample).  [income] resolves, is classified [raw], and its
    expression contains [Income]; called without filter, the generator
    returns a statement with no [WHERE] clause at all. *)
Lemma raw_income_metric_unfiltered :
  get_metric Sample.repo "income" =
    Some [("name", "income"); ("label", "Income");
          ("type", "raw"); ("sql", "Income")] /\
  is_in "Income" "Income" = true /\
  generate_metric_sql Sample.generator "income" None =
    Ok "SELECT Income FROM customers" /\
  occurrences "WHERE" "SELECT Income FROM customers" = 0 /\
  is_in "Income IS NOT NULL" "SELECT Income FROM customers" = false.
Proof. repeat split; vm_compute; reflexivity. Qed.

(** C3 (amended).  For a resolvable metric called without filter: when the
    expression does not contain [Income], the statement is the bare SELECT
    of the metric's branch and holds no [WHERE] beyond those written in the
    expression itself; when the expression contains [Income] and the
    classification is [sum] or [calculated], the statement is that SELECT
    followed by the single clause [WHERE Income IS NOT NULL], and holds
    exactly one [WHERE] more than the expression. *)
Theorem no_filter_where_clause (self : t) (n : string) (m : fields) :
  get_metric (parser self) n = Some m ->
  let e := strip (expression m) in
  (is_in "Income" (expression m) = false ->
   exists sql,
     generate_metric_sql self n None = Ok sql /\
     sql = (if aggregated m then select_avg e else select_raw e) /\
     occurrences "WHERE" sql = occurrences "WHERE" e) /\
  (is_in "Income" (expression m) = true -> aggregated m = true ->
   exists sql,
     generate_metric_sql self n None = Ok sql /\
     sql = select_avg e ++ gap ++ "WHERE Income IS NOT NULL" /\
     occurrences "WHERE" sql = occurrences "WHERE" e + 1).
Proof.
  intros Hm e.
  rewrite (generate_metric_sql_resolved _ _ _ _ Hm).
  rewrite metric_sql_body_shape by reflexivity.
  rewrite is_in_strip by reflexivity; fold e.
  change (filter_clauses self None) with (@nil string).
  split.
  - intros ->; cbn [where_text]; rewrite append_nil_r.
    eexists; split; [reflexivity|]; split; [reflexivity|].
    destruct (aggregated m);
      [apply occurrences_where_select_avg | apply occurrences_where_select_raw].
  - intros -> ->; cbn [where_text].
    eexists; split; [reflexivity|]; split; [reflexivity|].
    apply occurrences_where_select_avg_income.
Qed.

Lemma no_filter_where_clause_witness :
  get_metric (parser Sample.generator) "income_share" =
    Some [("name", "income_share"); ("label", "Income Share");
          ("type", "calculated"); ("sql", "MntWines / Income")] /\
  is_in "Income" "MntWines / Income" = true /\
  exists sql,
    generate_metric_sql Sample.generator "income_share" None = Ok sql /\
    sql = select_avg "MntWines / Income" ++ gap ++ "WHERE Income IS NOT NULL" /\
    occurrences "WHERE" sql = occurrences "WHERE" "MntWines / Income" + 1.
Proof.
  split; [reflexivity|]; split; [reflexivity|].
  apply (no_filter_where_clause Sample.generator "income_share"
           [("name", "income_share"); ("label", "Income Share");
            ("type", "calculated"); ("sql", "MntWines / Income")]);
    reflexivity.
Defined.

(** C4 (counterexample).  [recency] resolves and is classified [raw]; the
    statement returned projects the bare expression and gives it no
    alias. *)
Lemma raw_metric_has_no_alias :
  get_metric Sample.repo "recency" =
    Some [("name", "recency"); ("label", "Recency");
          ("type", "raw"); ("sql", "Recency")] /\
  generate_metric_sql Sample.generator "recency" None =
    Ok "SELECT Recency FROM customers" /\
  is_in "value" "SELECT Recency FROM customers" = false.
Proof. repeat split; vm_compute; reflexivity. Qed.

(** C4 (amended).  For a resolvable metric, and a filter whose lookup
    raises nothing and designates no scalar entry of the taxonomy: when the
    classification is [sum] or [calculated] the statement begins
    [SELECT AVG(<expression>) as value FROM customers] (on three lines);
    otherwise the statement begins [SELECT <expression> FROM customers],
    the expression unwrapped and without alias.  What follows the table
    name is left open in both cases. *)
Theorem select_clause_by_classification (self : t) (n : string) (m : fields)
    (filters : option fields) :
  get_metric (parser self) n = Some m ->
  filter_on_mapping self filters = true ->
  let e := strip (expression m) in
  (aggregated m = true ->
   exists rest,
     generate_metric_sql self n filters =
     Ok ("SELECT " ++ nl ++ sp 16 ++ "AVG(" ++ e ++ ") as value" ++
         nl ++ sp 12 ++ "FROM customers" ++ rest)) /\
  (aggregated m = false ->
   exists rest,
     generate_metric_sql self n filters =
     Ok ("SELECT " ++ e ++ " FROM customers" ++ rest)).
Proof.
  intros Hm Hf e.
  rewrite (generate_metric_sql_resolved _ _ _ _ Hm).
  rewrite (metric_sql_body_shape _ _ _ Hf); fold e.
  split; intros ->.
  - eexists; unfold select_avg; rewrite !append_assoc; reflexivity.
  - exists ""; unfold select_raw; now rewrite append_nil_r.
Qed.

Lemma select_clause_by_classification_witness :
  get_metric (parser Sample.generator) "total_spending" =
    Some [("name", "total_spending"); ("label", "Total Spending");
          ("type", "sum"); ("sql", "MntWines + MntFruits")] /\
  filter_on_mapping Sample.generator (Some Sample.parents_filter) = true /\
  exists rest,
    generate_metric_sql Sample.generator "total_spending"
                        (Some Sample.parents_filter) =
    Ok ("SELECT " ++ nl ++ sp 16 ++ "AVG(" ++ "MntWines + MntFruits" ++
        ") as value" ++ nl ++ sp 12 ++ "FROM customers" ++ rest).
Proof.
  split; [reflexivity|]; split; [reflexivity|].
  apply (select_clause_by_classification Sample.generator "total_spending"
           [("name", "total_spending"); ("label", "Total Spending");
            ("type", "sum"); ("sql", "MntWines + MntFruits")]
           (Some Sample.parents_filter)); reflexivity.
Defined.

End MetricSqlFacts.


(** ** The segment-breakdown generator *)

Module BreakdownFacts.
Import PyStr PyStrFacts QueryGenerator Shapes RepositoryFacts.

(** The source loop selects and renders exactly as [branches] reads it. *)
Lemma case_clauses_branches (segments : dict node) :
  case_clauses segments = branches segments.
Proof.
  unfold branches; induction segments as [|[seg_name [s|d]] rest IH].
  - reflexivity.
  - exact IH.
  - cbn [case_clauses isinstance_dict filter eligible snd].
    destruct (opt_truthy (get "definition" d)); cbn [map when_branch];
      now rewrite IH.
Qed.

Lemma strip_breakdown_template (case_expr e : string) :
  strip (nl ++ sp 8 ++ "SELECT " ++
         nl ++ sp 12 ++ case_expr ++ " as segment," ++
         nl ++ sp 12 ++ "COUNT(*) as customer_count," ++
         nl ++ sp 12 ++ "ROUND(AVG(" ++ e ++ "), 2) as avg_value" ++
         nl ++ sp 8 ++ "FROM customers" ++
         nl ++ sp 8 ++ "WHERE Income IS NOT NULL" ++
         nl ++ sp 8 ++ "GROUP BY segment" ++
         nl ++ sp 8 ++ "ORDER BY avg_value DESC" ++
         nl ++ sp 8)
  = breakdown_query case_expr e.
Proof.
  transitivity (strip ((nl ++ sp 8) ++ breakdown_query case_expr e ++ (nl ++ sp 8))).
  - f_equal; unfold breakdown_query; rewrite !append_assoc; reflexivity.
  - apply strip_sandwich; try reflexivity; unfold breakdown_query; visible_end.
Qed.

(** The breakdown generator once the metric is resolved: the statement
    around the branches of the type's entries, or the error of asking a
    null or a scalar for its items. *)
Lemma generate_segment_breakdown_outcome (self : t) (n ty : string) (m : fields) :
  get_metric (parser self) n = Some m ->
  generate_segment_breakdown self n ty =
  (items <- group_items
              (get_default ty (GMap [])
                 (get_default "taxonomy" [] (taxonomy (parser self)))) ;;
   Ok (breakdown_query (case_of (branches items)) (strip (expression m)))).
Proof.
  intros H; unfold generate_segment_breakdown; rewrite H.
  rewrite (get_metric_truthy _ _ _ H); cbn [negb].
  destruct (group_items _) as [items|e]; [|reflexivity]; cbn [bind].
  rewrite strip_breakdown_template, case_clauses_branches; reflexivity.
Qed.

Lemma generate_segment_breakdown_resolved (self : t) (n ty : string)
    (m : fields) (segs : dict node) :
  get_metric (parser self) n = Some m ->
  stored_segments self ty = Some segs ->
  generate_segment_breakdown self n ty =
  Ok (breakdown_query (case_of (branches segs)) (strip (expression m))).
Proof.
  intros Hm Hs; rewrite (generate_segment_breakdown_outcome _ _ _ _ Hm).
  unfold stored_segments in Hs.
  destruct (get_default ty (GMap []) _) as [d| |x]; try discriminate.
  now injection Hs as ->.
Qed.



(** An entry without a definition gets no WHEN branch: of the two entries
    under [loyalty], only [member] is rendered. *)
Example breakdown_skips_entry_without_definition :
  stored_segments Sample.generator "loyalty" =
    Some [("member", NDict [("definition", "NumWebVisitsMonth > 5");
                            ("label", "Member")]);
          ("unknown", NDict [("label", "Unknown")])] /\
  generate_segment_breakdown Sample.generator "total_spending" "loyalty" =
    Ok (breakdown_query
          ("CASE" ++ nl ++ sp 4 ++ "WHEN NumWebVisitsMonth > 5 THEN 'Member'" ++
           nl ++ sp 4 ++ "ELSE 'Other'" ++ nl ++ "END")
          "MntWines + MntFruits").
Proof. repeat split; vm_compute; reflexivity. Qed.



(** For a type that is absent from the taxonomy or bound to an empty
    mapping, the statement returned has a CASE expression with the ELSE
    branch and no WHEN branch. *)
Lemma breakdown_of_empty_type (self : t) (n ty : string) (m : fields) :
  get_metric (parser self) n = Some m ->
  stored_segments self ty = Some [] ->
  generate_segment_breakdown self n ty =
    Ok (breakdown_query
          ("CASE" ++ nl ++ sp 4 ++ nl ++ sp 4 ++ "ELSE 'Other'" ++ nl ++ "END")
          (strip (expression m))).
Proof.
  intros Hm Hs; now rewrite (generate_segment_breakdown_resolved _ _ _ _ _ Hm Hs).
Qed.

(** For a type bound to a null the generator raises, whatever the
    metric's entry holds. *)
Lemma breakdown_of_null_type (self : t) (n ty : string) (m : fields) :
  get_metric (parser self) n = Some m ->
  get ty (get_default "taxonomy" [] (taxonomy (parser self))) = Some GNull ->
  generate_segment_breakdown self n ty =
    Raise (AttributeError "'NoneType' object has no attribute 'items'").
Proof.
  intros Hm Hty; rewrite (generate_segment_breakdown_outcome _ _ _ _ Hm).
  set (tax := get_default "taxonomy" [] (taxonomy (parser self))) in *.
  unfold get_default, dict in *; now rewrite Hty.
Qed.

(** C8 (defect of the code).  The specification asks that a segment type
    under which no segments are stored give a statement in which every row
    falls into the [Other] bucket.  [pending] is such a type, written with
    nothing after its colon: the breakdown generator raises on it (first
    two equations), although [list_all_segments] tests the type's value
    before using it and passes over it (third equation).  For an empty
    mapping the generator returns a text (fourth equation) whose CASE
    expression holds no WHEN clause (last equation). *)
Theorem breakdown_of_null_type_raises :
  get "pending" (get_default "taxonomy" [] (taxonomy Demo.repo)) = Some GNull /\
  generate_segment_breakdown Demo.generator "total_spending" "pending" =
    Raise (AttributeError "'NoneType' object has no attribute 'items'") /\
  get "pending" (Enumeration.list_all_segments Demo.repo) = None /\
  generate_segment_breakdown Sample.generator "total_spending" "empty_type" =
    Ok (breakdown_query
          ("CASE" ++ nl ++ sp 4 ++ nl ++ sp 4 ++ "ELSE 'Other'" ++ nl ++ "END")
          "MntWines + MntFruits") /\
  is_in "WHEN"
        ("CASE" ++ nl ++ sp 4 ++ nl ++ sp 4 ++ "ELSE 'Other'" ++ nl ++ "END")
    = false.
Proof. repeat split; vm_compute; reflexivity. Qed.

End BreakdownFacts.


(** ** The comparison generator *)

Module ComparisonFacts.
Import PyStr PyStrFacts QueryGenerator Shapes RepositoryFacts.

Lemma strip_comparison_template (la lb e da db : string) :
  strip (nl ++ sp 8 ++ "SELECT " ++
         nl ++ sp 12 ++ "'" ++ la ++ "' as segment," ++
         nl ++ sp 12 ++ "COUNT(*) as customers," ++
         nl ++ sp 12 ++ "ROUND(AVG(" ++ e ++ "), 2) as avg_value" ++
         nl ++ sp 8 ++ "FROM customers" ++
         nl ++ sp 8 ++ "WHERE (" ++ da ++ ")" ++
         nl ++ sp 10 ++ "AND Income IS NOT NULL" ++
         nl ++ sp 8 ++
         nl ++ sp 8 ++ "UNION ALL" ++
         nl ++ sp 8 ++
         nl ++ sp 8 ++ "SELECT " ++
         nl ++ sp 12 ++ "'" ++ lb ++ "' as segment," ++
         nl ++ sp 12 ++ "COUNT(*) as customers," ++
         nl ++ sp 12 ++ "ROUND(AVG(" ++ e ++ "), 2) as avg_value" ++
         nl ++ sp 8 ++ "FROM customers" ++
         nl ++ sp 8 ++ "WHERE (" ++ db ++ ")" ++
         nl ++ sp 10 ++ "AND Income IS NOT NULL" ++
         nl ++ sp 8)
  = comparison_select la e da ++ union_all ++ comparison_select lb e db.
Proof.
  transitivity
    (strip ((nl ++ sp 8) ++
            (comparison_select la e da ++ union_all ++ comparison_select lb e db)
            ++ (nl ++ sp 8))).
  - f_equal; unfold comparison_select, union_all; rewrite !append_assoc; reflexivity.
  - apply strip_sandwich; try reflexivity.
    unfold comparison_select at 2; visible_end.
Qed.

Lemma comparison_unknown_metric (self : t) (n : string) (a b : fields) :
  get_metric (parser self) n = None ->
  generate_comparison_query self n a b = Raise (metric_not_found n).
Proof. intros H; unfold generate_comparison_query; now rewrite H. Qed.

Lemma comparison_unknown_segment (self : t) (n : string) (m a b : fields)
    (ta na tb nb : string) :
  get_metric (parser self) n = Some m ->
  get "type" a = Some ta -> get "name" a = Some na ->
  get "type" b = Some tb -> get "name" b = Some nb ->
  (exists ra, get_customer_segment (parser self) ta na = Ok ra) ->
  (exists rb, get_customer_segment (parser self) tb nb = Ok rb) ->
  get_customer_segment (parser self) ta na = Ok None \/
  get_customer_segment (parser self) tb nb = Ok None ->
  generate_comparison_query self n a b = Raise segment_not_found.
Proof.
  intros Hm Hta Hna Htb Hnb [ra Ha] [rb Hb] H.
  unfold generate_comparison_query, getitem.
  rewrite Hm, (get_metric_truthy _ _ _ Hm), Hta, Hna; cbn [negb bind].
  rewrite Ha; cbn [bind]; rewrite Htb, Hnb; cbn [bind]; rewrite Hb; cbn [bind].
  destruct H as [H | H]; rewrite H in *.
  - now injection Ha as <-.
  - injection Hb as <-; now destruct ra.
Qed.

(** C6.  For a resolvable metric and two segment references that resolve
    (to non-empty mappings, which is what the generator takes for found),
    the comparison generator returns two SELECT blocks of one and the same
    shape joined by [UNION ALL]; each block selects its segment's label as
    a string literal, [COUNT( * )] and [ROUND(AVG(<expression>), 2)], and
    filters on [(<definition>)] and [Income IS NOT NULL].  A label or
    definition that is not configured is printed as [None]. *)
Theorem comparison_two_blocks (self : t) (n : string) (m a b da db : fields)
    (ta na tb nb : string) :
  get_metric (parser self) n = Some m ->
  get "type" a = Some ta -> get "name" a = Some na ->
  get "type" b = Some tb -> get "name" b = Some nb ->
  get_customer_segment (parser self) ta na = Ok (Some (NDict da)) ->
  get_customer_segment (parser self) tb nb = Ok (Some (NDict db)) ->
  dict_truthy da = true -> dict_truthy db = true ->
  let e := strip (expression m) in
  let block (label definition : string) :=
    "SELECT " ++
    nl ++ sp 12 ++ "'" ++ label ++ "' as segment," ++
    nl ++ sp 12 ++ "COUNT(*) as customers," ++
    nl ++ sp 12 ++ "ROUND(AVG(" ++ e ++ "), 2) as avg_value" ++
    nl ++ sp 8 ++ "FROM customers" ++
    nl ++ sp 8 ++ "WHERE (" ++ definition ++ ")" ++
    nl ++ sp 10 ++ "AND Income IS NOT NULL" in
  generate_comparison_query self n a b =
  Ok (block (fmt (get "label" da)) (fmt (get "definition" da)) ++
      nl ++ sp 8 ++ nl ++ sp 8 ++ "UNION ALL" ++ nl ++ sp 8 ++ nl ++ sp 8 ++
      block (fmt (get "label" db)) (fmt (get "definition" db))).
Proof.
  intros Hm Hta Hna Htb Hnb Ha Hb Hda Hdb e block.
  unfold generate_comparison_query, getitem.
  rewrite Hm, (get_metric_truthy _ _ _ Hm), Hta, Hna; cbn [negb bind].
  rewrite Ha; cbn [bind]; rewrite Htb, Hnb; cbn [bind]; rewrite Hb.
  cbn [bind node_truthy]; rewrite Hda, Hdb.
  cbn [negb orb node_get bind].
  fold (expression m); fold e.
  now rewrite strip_comparison_template.
Qed.

Lemma comparison_two_blocks_witness :
  get_customer_segment (parser Sample.generator) "family_status" "parents" =
    Ok (Some (NDict Sample.parents)) /\
  get_customer_segment (parser Sample.generator) "family_status" "no_children" =
    Ok (Some (NDict Sample.no_children)) /\
  generate_comparison_query Sample.generator "income_share"
                            Sample.parents_ref Sample.no_children_ref =
  Ok (comparison_select "Parents" "MntWines / Income" "Kidhome + Teenhome > 0" ++
      union_all ++
      comparison_select "No Children" "MntWines / Income" "Kidhome + Teenhome = 0").
Proof.
  split; [reflexivity|]; split; [reflexivity|].
  apply (comparison_two_blocks Sample.generator "income_share"
           [("name", "income_share"); ("label", "Income Share");
            ("type", "calculated"); ("sql", "MntWines / Income")]
           Sample.parents_ref Sample.no_children_ref
           Sample.parents Sample.no_children
           "family_status" "parents" "family_status" "no_children");
    reflexivity.
Defined.

End ComparisonFacts.


(** ** Reported outcomes *)

Module OutcomeFacts.
Import PyStr QueryGenerator Shapes RepositoryFacts.

Lemma metric_sql_unknown_metric (self : t) (n : string) (f : option fields) :
  get_metric (parser self) n = None ->
  generate_metric_sql self n f = Raise (metric_not_found_in_layer n).
Proof. intros H; unfold generate_metric_sql; now rewrite H. Qed.

Lemma breakdown_unknown_metric (self : t) (n ty : string) :
  get_metric (parser self) n = None ->
  generate_segment_breakdown self n ty = Raise (metric_not_found n).
Proof. intros H; unfold generate_segment_breakdown; now rewrite H. Qed.

(** The two messages of the comparison generator never coincide: the one
    starts with [M], the other with [S]. *)
Lemma metric_and_segment_errors_differ (n : string) :
  metric_not_found n <> segment_not_found /\
  metric_not_found_in_layer n <> segment_not_found.
Proof. split; discriminate. Qed.

(** C7 (defect of the code).  The specification asks that an unknown
    segment be reported as an outcome of its own, recognisable from the
    result alone.  An unknown metric is reported (first equation) and the
    comparison generator reports an unknown segment (second equation), but
    the point-metric generator, given a filter whose segment is unknown
    (third equation), returns the very statement it returns without filter
    (last two equations): nothing in the result tells the caller that the
    segment was unknown. *)
Theorem unknown_segment_not_reported :
  generate_metric_sql Sample.generator "nonexistent_metric"
                      (Some Sample.typo_filter) =
    Raise (ValueError "Metric 'nonexistent_metric' not found in semantic layer") /\
  generate_comparison_query Sample.generator "total_spending"
      [("type", "family_status"); ("name", "parentz")] Sample.no_children_ref =
    Raise (ValueError "Segment not found") /\
  get_customer_segment Sample.repo "family_status" "parentz" = Ok None /\
  generate_metric_sql Sample.generator "total_spending" (Some Sample.typo_filter) =
    Ok (select_avg "MntWines + MntFruits") /\
  generate_metric_sql Sample.generator "total_spending" None =
    Ok (select_avg "MntWines + MntFruits").
Proof. repeat split; vm_compute; reflexivity. Qed.

End OutcomeFacts.

(** ** Enumerating metrics and segments *)

Module EnumerationFacts.
Import Enumeration.

Lemma get_none_iff {V : Type} (k : string) (d : dict V) :
  get k d = None <-> ~ In k (map fst d).
Proof.
  induction d as [|[k' v] d IH]; simpl; [tauto|].
  destruct (String.eqb_spec k' k) as [->|Hne].
  - split; [discriminate | intros H; exfalso; apply H; now left].
  - rewrite IH; tauto.
Qed.

Lemma get_some_iff {V : Type} (k : string) (d : dict V) :
  (exists v, get k d = Some v) <-> In k (map fst d).
Proof.
  induction d as [|[k' v] d IH]; simpl.
  - split; [intros [? ?]; discriminate | tauto].
  - destruct (String.eqb_spec k' k) as [->|Hne].
    + split; [now left | intros _; now exists v].
    + rewrite IH; tauto.
Qed.

Lemma get_app {V : Type} (k : string) (d1 d2 : dict V) :
  get k (d1 ++ d2)%list =
  match get k d1 with Some v => Some v | None => get k d2 end.
Proof.
  induction d1 as [|[k' v] d1 IH]; simpl; [reflexivity|].
  now destruct (String.eqb k' k).
Qed.

Lemma get_setitem_same {V : Type} (k : string) (v : V) (d : dict V) :
  get k (setitem k v d) = Some v.
Proof.
  induction d as [|[k' v'] d IH]; simpl; [now rewrite String.eqb_refl|].
  destruct (String.eqb k' k) eqn:E; simpl; rewrite E; [reflexivity | exact IH].
Qed.

Lemma get_setitem_other {V : Type} (k k0 : string) (v : V) (d : dict V) :
  k <> k0 -> get k0 (setitem k v d) = get k0 d.
Proof.
  intros Hne; induction d as [|[k' v'] d IH]; simpl.
  - now destruct (String.eqb_spec k k0).
  - destruct (String.eqb_spec k' k) as [->|Hk]; simpl.
    + now destruct (String.eqb_spec k k0).
    + destruct (String.eqb k' k0); [reflexivity | exact IH].
Qed.

Lemma setitem_fresh {V : Type} (k : string) (v : V) (d : dict V) :
  get k d = None -> setitem k v d = (d ++ [(k, v)])%list.
Proof.
  induction d as [|[k' v'] d IH]; simpl; [reflexivity|].
  destruct (String.eqb k' k); [discriminate|].
  intros H; now rewrite (IH H).
Qed.

Lemma not_in_metadata (k : string) :
  not_in k ["metadata"] = negb (String.eqb k "metadata").
Proof. unfold not_in; simpl; now rewrite orb_false_r. Qed.

Lemma loop_keeps_metadata_out (items : dict group)
    (result : dict (list string)) :
  get "metadata" result = None ->
  get "metadata" (list_all_segments_loop items result) = None.
Proof.
  revert result; induction items as [|[ty segs] items IH]; intros result H;
    [exact H|].
  cbn [list_all_segments_loop]; rewrite not_in_metadata.
  destruct (is_dict segs); cbn [andb]; [|now apply IH].
  destruct (String.eqb_spec ty "metadata") as [->|Hne]; cbn [negb].
  - now apply IH.
  - apply IH; now rewrite get_setitem_other.
Qed.

Lemma loop_on_distinct_keys (items : dict group)
    (result : dict (list string)) :
  NoDup (map fst items) ->
  (forall k, In k (map fst items) -> get k result = None) ->
  list_all_segments_loop items result =
  (result ++ map listing (filter kept items))%list.
Proof.
  revert result; induction items as [|[ty segs] items IH]; intros result Hnd Hfresh.
  - simpl; now rewrite app_nil_r.
  - inversion Hnd as [|? ? Hty Hnd']; subst.
    cbn [list_all_segments_loop filter]; rewrite not_in_metadata.
    unfold kept at 1; cbn [fst snd].
    destruct (is_dict segs && negb (String.eqb ty "metadata")).
    + rewrite IH; [| assumption |].
      * rewrite setitem_fresh by (apply Hfresh; now left).
        cbn [map]; unfold listing at 2; cbn [fst snd].
        now rewrite <- app_assoc.
      * intros k Hk; rewrite get_setitem_other.
        -- apply Hfresh; now right.
        -- intros ->; contradiction.
    + apply IH; [assumption|]; intros k Hk; apply Hfresh; now right.
Qed.

Lemma list_all_segments_on_distinct_keys (self : SemanticLayerParser) :
  NoDup (map fst (get_default "taxonomy" [] (taxonomy self))) ->
  list_all_segments self =
  map listing (filter kept (get_default "taxonomy" [] (taxonomy self))).
Proof.
  intros Hnd; unfold list_all_segments.
  now rewrite loop_on_distinct_keys.
Qed.

Lemma get_listing (ty : string) (items : dict group) :
  NoDup (map fst items) ->
  get ty (map listing (filter kept items)) =
  if String.eqb ty "metadata" then None
  else match get ty items with
       | Some (GMap segs) => Some (map fst segs)
       | _ => None
       end.
Proof.
  induction items as [|[k g] items IH]; intros Hnd.
  - simpl; now destruct (String.eqb ty "metadata").
  - inversion Hnd as [|? ? Hk Hnd']; subst.
    specialize (IH Hnd').
    cbn [filter get]; unfold kept at 1; cbn [fst snd].
    destruct (String.eqb_spec k ty) as [->|Hkt].
    + assert (Hfresh : get ty items = None) by now apply get_none_iff.
      rewrite Hfresh in IH.
      destruct g as [segs| |s]; cbn [is_dict andb].
      * destruct (String.eqb ty "metadata"); cbn [negb].
        -- exact IH.
        -- cbn [map get]; unfold listing at 1; cbn [fst snd keys].
           now rewrite String.eqb_refl.
      * rewrite IH; now destruct (String.eqb ty "metadata").
      * rewrite IH; now destruct (String.eqb ty "metadata").
    + destruct (is_dict g && negb (String.eqb k "metadata")); [|exact IH].
      cbn [map get]; unfold listing at 1; cbn [fst snd].
      destruct (String.eqb_spec k ty) as [E|_]; [contradiction | exact IH].
Qed.

Lemma list_all_metrics_In (self : SemanticLayerParser) (n : string) :
  In n (list_all_metrics self) <-> exists m, get_metric self n = Some m.
Proof.
  unfold list_all_metrics, get_metric.
  induction (get_default "metrics" [] (metrics self)) as [|x l IH]; simpl.
  - split; [tauto | intros [? ?]; discriminate].
  - rewrite in_app_iff.
    destruct (get "name" x) as [nx|]; simpl.
    + destruct (String.eqb_spec nx n) as [->|Hne].
      * split; [intros _; now exists x | intros _; left; now left].
      * rewrite IH; simpl; intuition congruence.
    + rewrite IH; tauto.
Qed.

(** X1.  The advertised metric names are exactly the names [get_metric]
    resolves: a name is listed by [list_all_metrics] if and only if
    [get_metric] finds a metric for it. *)
Theorem advertised_metrics_resolve (self : SemanticLayerParser) (n : string) :
  In n (list_all_metrics self) <-> exists m, get_metric self n = Some m.
Proof. apply list_all_metrics_In. Qed.

(** X2.  [list_all_segments] never lists the taxonomy's [metadata] block as
    a segment type, whatever the taxonomy holds. *)
Theorem metadata_block_not_listed (self : SemanticLayerParser) :
  get "metadata" (list_all_segments self) = None /\
  ~ In "metadata" (map fst (list_all_segments self)).
Proof.
  assert (H : get "metadata" (list_all_segments self) = None)
    by now apply loop_keeps_metadata_out.
  split; [exact H | now apply get_none_iff].
Qed.

(** X3.  When the taxonomy's type names are distinct (as the keys of a
    mapping are), [list_all_segments] lists, in the taxonomy's order, the
    types whose value is a mapping and whose name is not [metadata], each
    with the names stored under it in their order; a type bound to a null
    or to a scalar is left out. *)
Theorem list_all_segments_is_taxonomy_order (self : SemanticLayerParser) :
  NoDup (map fst (get_default "taxonomy" [] (taxonomy self))) ->
  list_all_segments self =
  map (fun item => (fst item, keys (snd item)))
      (filter (fun item =>
                 is_dict (snd item) && negb (String.eqb (fst item) "metadata"))
              (get_default "taxonomy" [] (taxonomy self))).
Proof. apply list_all_segments_on_distinct_keys. Qed.

Lemma demo_types_distinct :
  NoDup (map fst (get_default "taxonomy" [] (taxonomy Demo.repo))).
Proof.
  repeat constructor; simpl; intuition discriminate.
Defined.

Lemma list_all_segments_is_taxonomy_order_witness :
  list_all_segments Demo.repo =
  [("family_status", ["description"; "parents"; "no_children"]);
   ("value_tiers", ["high_value"])].
Proof.
  apply (list_all_segments_is_taxonomy_order Demo.repo), demo_types_distinct.
Defined.

(** X4.  When the taxonomy's type names are distinct, every pair (type,
    name) for which [get_customer_segment] returns an entry is advertised
    by [list_all_segments], unless the type is [metadata]; and every
    advertised pair is a name stored in a mapping-valued type other than
    [metadata]. *)
Theorem advertised_segments_resolve (self : SemanticLayerParser)
    (ty name : string) :
  NoDup (map fst (get_default "taxonomy" [] (taxonomy self))) ->
  let advertised :=
    exists names,
      get ty (list_all_segments self) = Some names /\ In name names in
  (ty <> "metadata" ->
   (exists entry, get_customer_segment self ty name = Ok (Some entry)) ->
   advertised) /\
  (advertised ->
   ty <> "metadata" /\
   exists segs,
     get ty (get_default "taxonomy" [] (taxonomy self)) = Some (GMap segs) /\
     In name (map fst segs)).
Proof.
  intros Hnd advertised; unfold advertised; clear advertised.
  rewrite (list_all_segments_on_distinct_keys _ Hnd), (get_listing _ _ Hnd).
  unfold get_customer_segment; cbv zeta.
  set (tax := get_default "taxonomy" [] (taxonomy self)).
  unfold get_default, dict in *.
  destruct (String.eqb_spec ty "metadata") as [->|Hty].
  - split; [intros H; now elim H | intros [? [? _]]; discriminate].
  - destruct (get ty tax) as [[segs| |s]|]; cbn [group_contains bind].
    + split.
      * intros _ [entry H]; exists (map fst segs); split; [reflexivity|].
        apply get_some_iff.
        destruct (get name segs) as [v|] eqn:E; [now exists v|].
        discriminate.
      * intros [names [E Hin]]; injection E as <-.
        split; [assumption | now exists segs].
    + split; [intros _ [? H]; discriminate | intros [? [? _]]; discriminate].
    + split; [| intros [? [? _]]; discriminate].
      intros _ [entry H]; destruct (PyStr.is_in name s); discriminate.
    + split; [intros _ [? H]; discriminate | intros [? [? _]]; discriminate].
Qed.

Lemma advertised_segments_resolve_witness :
  ("family_status" <> "metadata" ->
   (exists entry,
      get_customer_segment Demo.repo "family_status" "parents" =
        Ok (Some entry)) ->
   exists names,
     get "family_status" (list_all_segments Demo.repo) = Some names /\
     In "parents" names) /\
  ((exists names,
      get "family_status" (list_all_segments Demo.repo) = Some names /\
      In "parents" names) ->
   "family_status" <> "metadata" /\
   exists segs,
     get "family_status" (get_default "taxonomy" [] (taxonomy Demo.repo)) =
       Some (GMap segs) /\
     In "parents" (map fst segs)).
Proof.
  apply (advertised_segments_resolve Demo.repo "family_status" "parents"),
        demo_types_distinct.
Defined.

End EnumerationFacts.


(** ** Outcomes of the three generators *)

Module GeneratorOutcomeFacts.
Import PyStr PyStrFacts QueryGenerator Shapes RepositoryFacts MetricSqlFacts.

(** *** Stripping twice *)

Lemma lstrip_head (s : string) : lstrip s = "" \/ head_visible (lstrip s) = true.
Proof.
  induction s as [|c s IH]; [now left|]; simpl.
  destruct (isspace c) eqn:E; [exact IH | right; simpl; now rewrite E].
Qed.

Lemma rstrip_last (s : string) : rstrip s = "" \/ last_visible (rstrip s) = true.
Proof.
  induction s as [|c s IH]; [now left|]; simpl.
  destruct (rstrip s) as [|d r] eqn:E.
  - destruct (isspace c) eqn:Ec; [now left | right; simpl; now rewrite Ec].
  - right; destruct IH as [IH|IH]; [discriminate | exact IH].
Qed.

Lemma rstrip_head (s : string) :
  head_visible s = true -> head_visible (rstrip s) = true.
Proof.
  destruct s as [|c s]; [discriminate|]; intros H.
  rewrite rstrip_cons_nonspace; [exact H|].
  simpl in H; now apply negb_true_iff.
Qed.

Lemma strip_strip (s : string) : strip (strip s) = strip s.
Proof.
  unfold strip at 2 3.
  destruct (lstrip_head s) as [E|Hh]; [now rewrite E|].
  destruct (rstrip_last (lstrip s)) as [E|Hl]; [now rewrite E|].
  apply strip_visible; [now apply rstrip_head | exact Hl].
Qed.

(** *** The point-metric generator *)

Lemma metric_sql_body_of_clauses (self : t) (m : fields) (filters : option fields) :
  build_where_clauses self filters = Ok (filter_clauses self filters) ->
  metric_sql_body self m filters =
  Ok (if aggregated m
      then select_avg (strip (expression m)) ++
           where_text (filter_clauses self filters)
                      (is_in "Income" (strip (expression m)))
      else select_raw (strip (expression m))).
Proof.
  intros Hf; unfold metric_sql_body; rewrite Hf; cbn [bind].
  fold (expression m); fold (aggregated m).
  destruct (aggregated m); [|now rewrite <- strip_select_raw].
  f_equal; unfold filter_clauses.
  destruct (filter_segment self filters) as [[s|[|x d]]|]; cbn [list_truthy].
  - apply body_no_clause.
  - apply body_no_clause.
  - apply body_one_clause; visible_end.
  - apply body_no_clause.
Qed.

(** Every outcome of [metric_sql_body]: the error of the filter's lookup,
    an attribute error when the lookup returns a non-empty scalar, a
    statement otherwise. *)
Lemma metric_sql_body_outcome (self : t) (m : fields) (filters : option fields) :
  metric_sql_body self m filters =
  match filter_lookup self filters with
  | Raise e => Raise e
  | Ok (Some (NScalar (String _ _))) => Raise str_no_get
  | Ok _ =>
    Ok (if aggregated m
        then select_avg (strip (expression m)) ++
             where_text (filter_clauses self filters)
                        (is_in "Income" (strip (expression m)))
        else select_raw (strip (expression m)))
  end.
Proof.
  pose proof (build_where_clauses_spec self filters) as H.
  destruct (filter_lookup self filters) as [[[[|c s]|d]|]|e] eqn:E;
    try (now apply metric_sql_body_of_clauses);
    unfold metric_sql_body; now rewrite H.
Qed.

Lemma build_where_clauses_incomplete (self : t) (fl : fields) :
  opt_truthy (get "segment_type" fl) && opt_truthy (get "segment" fl) = false ->
  build_where_clauses self (Some fl) = Ok [].
Proof.
  unfold build_where_clauses; intros H.
  destruct (dict_truthy fl); [|reflexivity].
  destruct (get "segment_type" fl) as [st|], (get "segment" fl) as [sn|];
    try reflexivity.
  cbn [opt_truthy] in H; now rewrite H.
Qed.

(** X6.  A filter without a non-empty [segment_type] or without a non-empty
    [segment] is not an error: the point-metric generator treats it as no
    filter at all and returns what it returns without one. *)
Theorem incomplete_filter_is_no_filter (self : t) (n : string) (fl : fields) :
  opt_truthy (get "segment_type" fl) && opt_truthy (get "segment" fl) = false ->
  generate_metric_sql self n (Some fl) = generate_metric_sql self n None.
Proof.
  intros H; unfold generate_metric_sql, metric_sql_body.
  now rewrite (build_where_clauses_incomplete _ _ H).
Qed.

Lemma incomplete_filter_is_no_filter_witness :
  generate_metric_sql Sample.generator "total_spending"
                      (Some [("segment", "parents")]) =
  generate_metric_sql Sample.generator "total_spending" None.
Proof.
  apply (incomplete_filter_is_no_filter Sample.generator "total_spending"
           [("segment", "parents")]); reflexivity.
Defined.

Lemma occurrences_where_clause (x : string) :
  occurrences "WHERE" ("WHERE (" ++ x) = 1 + occurrences "WHERE" x.
Proof.
  change ("WHERE (" ++ x) with (String "W" ("HERE (" ++ x)).
  cbn [occurrences].
  change (startswith "WHERE" (String "W" ("HERE (" ++ x))) with true.
  now rewrite occurrences_skip_prefix.
Qed.

Lemma occurrences_filtered (e def rest : string) :
  foreign_head "WHERE" rest = true -> occurrences "WHERE" rest = 0 ->
  occurrences "WHERE"
    (select_avg e ++ gap ++ "WHERE " ++ ("(" ++ def ++ ")") ++ rest)
  = occurrences "WHERE" e + occurrences "WHERE" def + 1.
Proof.
  intros Hf Hr; unfold select_avg, gap; rewrite !append_assoc.
  rewrite (occurrences_select_avg e _ (occurrences "WHERE" def + 1));
    [lia | reflexivity |].
  change (") as value" ++ nl ++ sp 12 ++ "FROM customers" ++ nl ++ sp 12 ++ nl ++
          "WHERE " ++ "(" ++ def ++ ")" ++ rest)
    with ((") as value" ++ nl ++ sp 12 ++ "FROM customers" ++ nl ++ sp 12 ++ nl) ++
          "WHERE (" ++ def ++ ")" ++ rest).
  rewrite occurrences_skip_prefix by reflexivity.
  rewrite occurrences_where_clause.
  rewrite occurrences_app by (discriminate || reflexivity).
  change (")" ++ rest) with (String ")" rest).
  rewrite (occurrences_cons_other "WHERE" "W" ")" "HERE") by reflexivity.
  lia.
Qed.

(** X7.  For a metric classified [sum] or [calculated] and a filter whose
    non-empty type and name resolve to a mapping with a definition, the
    statement is the [AVG] select followed by one [WHERE] clause holding
    the definition in parentheses, with [AND Income IS NOT NULL] appended
    exactly when the expression mentions [Income]; filter and income guard
    share that one clause, so the statement holds a single [WHERE] besides
    those written in the expression and in the definition. *)
Theorem filtered_aggregate_statement (self : t) (n : string) (m fl d : fields)
    (st sn def : string) :
  get_metric (parser self) n = Some m -> aggregated m = true ->
  get "segment_type" fl = Some st -> truthy st = true ->
  get "segment" fl = Some sn -> truthy sn = true ->
  get_customer_segment (parser self) st sn = Ok (Some (NDict d)) ->
  get "definition" d = Some def ->
  let e := strip (expression m) in
  exists sql,
    generate_metric_sql self n (Some fl) = Ok sql /\
    sql = select_avg e ++ gap ++ "WHERE " ++ ("(" ++ def ++ ")") ++
          (if is_in "Income" e then nl ++ "  AND Income IS NOT NULL" else "") /\
    occurrences "WHERE" sql =
      occurrences "WHERE" e + occurrences "WHERE" def + 1.
Proof.
  intros Hm Ha Ht Hst Hn Hsn Hseg Hdef e.
  eexists; split;
    [exact (filter_applied_when_aggregated _ _ _ _ _ _ _ _
              Hm Ha Ht Hst Hn Hsn Hseg Hdef)|].
  fold e; split; [reflexivity|].
  destruct (is_in "Income" e); now apply occurrences_filtered.
Qed.

Lemma filtered_aggregate_statement_witness :
  exists sql,
    generate_metric_sql Sample.generator "income_share"
                        (Some Sample.parents_filter) = Ok sql /\
    sql = select_avg "MntWines / Income" ++ gap ++ "WHERE " ++
          ("(" ++ "Kidhome + Teenhome > 0" ++ ")") ++
          nl ++ "  AND Income IS NOT NULL" /\
    occurrences "WHERE" sql = 0 + 0 + 1.
Proof.
  apply (filtered_aggregate_statement Sample.generator "income_share"
           [("name", "income_share"); ("label", "Income Share");
            ("type", "calculated"); ("sql", "MntWines / Income")]
           Sample.parents_filter Sample.parents
           "family_status" "parents" "Kidhome + Teenhome > 0"); reflexivity.
Defined.

(** *** The comparison generator *)

Lemma comparison_query_found (self : t) (n : string) (m a b da db : fields)
    (ta na tb nb : string) :
  get_metric (parser self) n = Some m ->
  get "type" a = Some ta -> get "name" a = Some na ->
  get "type" b = Some tb -> get "name" b = Some nb ->
  get_customer_segment (parser self) ta na = Ok (Some (NDict da)) ->
  get_customer_segment (parser self) tb nb = Ok (Some (NDict db)) ->
  dict_truthy da = true -> dict_truthy db = true ->
  generate_comparison_query self n a b =
  Ok (comparison_select (fmt (get "label" da)) (strip (expression m))
                        (fmt (get "definition" da)) ++
      union_all ++
      comparison_select (fmt (get "label" db)) (strip (expression m))
                        (fmt (get "definition" db))).
Proof.
  intros Hm Hta Hna Htb Hnb Ha Hb Hda Hdb.
  unfold generate_comparison_query, getitem.
  rewrite Hm, (get_metric_truthy _ _ _ Hm), Hta, Hna; cbn [negb bind].
  rewrite Ha; cbn [bind]; rewrite Htb, Hnb; cbn [bind]; rewrite Hb.
  cbn [bind node_truthy]; rewrite Hda, Hdb.
  cbn [negb orb node_get bind]; fold (expression m).
  now rewrite ComparisonFacts.strip_comparison_template.
Qed.

Lemma comparison_ok_inv (self : t) (n : string) (a b : fields) (sql : string) :
  generate_comparison_query self n a b = Ok sql ->
  exists m ta na tb nb da db,
    get_metric (parser self) n = Some m /\
    get "type" a = Some ta /\ get "name" a = Some na /\
    get "type" b = Some tb /\ get "name" b = Some nb /\
    get_customer_segment (parser self) ta na = Ok (Some (NDict da)) /\
    dict_truthy da = true /\
    get_customer_segment (parser self) tb nb = Ok (Some (NDict db)) /\
    dict_truthy db = true.
Proof.
  unfold generate_comparison_query, getitem.
  destruct (get_metric (parser self) n) as [m|] eqn:Hm; [|discriminate].
  rewrite (get_metric_truthy _ _ _ Hm); cbn [negb].
  destruct (get "type" a) as [ta|]; [|discriminate].
  destruct (get "name" a) as [na|]; [|discriminate]; cbn [bind].
  destruct (get_customer_segment (parser self) ta na) as [[xa|]|ea] eqn:Ha;
    cbn [bind]; try discriminate.
  - destruct (get "type" b) as [tb|]; [|discriminate].
    destruct (get "name" b) as [nb|]; [|discriminate]; cbn [bind].
    destruct (get_customer_segment (parser self) tb nb) as [[xb|]|eb] eqn:Hb;
      cbn [bind]; try discriminate.
    revert Ha Hb; generalize xa xb; clear xa xb; intros xa xb Ha Hb.
    destruct (node_truthy xa) eqn:Hxa; [|discriminate].
    destruct (node_truthy xb) eqn:Hxb; [|discriminate]; cbn [negb orb].
    destruct xa as [sa|da]; [discriminate|].
    destruct xb as [sb|db]; [discriminate|].
    intros _; exists m, ta, na, tb, nb, da, db; auto 12.
  - destruct (get "type" b) as [tb|]; [|discriminate].
    destruct (get "name" b) as [nb|]; [|discriminate]; cbn [bind].
    destruct (get_customer_segment (parser self) tb nb) as [[xb|]|eb];
      discriminate.
Qed.

(** X9.  The comparison generator returns a statement if and only if the
    metric resolves, both references carry a [type] and a [name], and both
    resolve to non-empty mappings; in every other case it raises. *)
Theorem comparison_returns_sql_iff (self : t) (n : string) (a b : fields) :
  (exists sql, generate_comparison_query self n a b = Ok sql) <->
  (exists m ta na tb nb da db,
      get_metric (parser self) n = Some m /\
      get "type" a = Some ta /\ get "name" a = Some na /\
      get "type" b = Some tb /\ get "name" b = Some nb /\
      get_customer_segment (parser self) ta na = Ok (Some (NDict da)) /\
      dict_truthy da = true /\
      get_customer_segment (parser self) tb nb = Ok (Some (NDict db)) /\
      dict_truthy db = true).
Proof.
  split.
  - intros [sql H]; exact (comparison_ok_inv _ _ _ _ _ H).
  - intros [m [ta [na [tb [nb [da [db
      [Hm [Hta [Hna [Htb [Hnb [Ha [Hda [Hb Hdb]]]]]]]]]]]]]]].
    eexists; exact (comparison_query_found _ _ _ _ _ _ _ _ _ _ _
                      Hm Hta Hna Htb Hnb Ha Hb Hda Hdb).
Qed.

(** X10.  For a resolvable metric, a segment reference without [type] or
    without [name] makes the comparison generator raise [KeyError] for the
    first missing key, the first reference being read before the second.
    The second reference is read once the first lookup has returned and
    before either segment is looked at: its missing key is reported even
    when the first reference names an unknown segment. *)
Theorem comparison_missing_key (self : t) (n : string) (m a b : fields) :
  get_metric (parser self) n = Some m ->
  (get "type" a = None ->
   generate_comparison_query self n a b = Raise (KeyError "type")) /\
  (forall ta, get "type" a = Some ta -> get "name" a = None ->
   generate_comparison_query self n a b = Raise (KeyError "name")) /\
  (forall ta na, get "type" a = Some ta -> get "name" a = Some na ->
   get "type" b = None ->
   generate_comparison_query self n a b =
   match get_customer_segment (parser self) ta na with
   | Ok _ => Raise (KeyError "type")
   | Raise e => Raise e
   end) /\
  (forall ta na tb, get "type" a = Some ta -> get "name" a = Some na ->
   get "type" b = Some tb -> get "name" b = None ->
   generate_comparison_query self n a b =
   match get_customer_segment (parser self) ta na with
   | Ok _ => Raise (KeyError "name")
   | Raise e => Raise e
   end).
Proof.
  intros Hm; unfold generate_comparison_query, getitem.
  rewrite Hm, (get_metric_truthy _ _ _ Hm); cbn [negb].
  repeat split.
  - now intros ->.
  - now intros ta -> ->.
  - intros ta na -> -> ->; cbn [bind].
    now destruct (get_customer_segment (parser self) ta na).
  - intros ta na tb -> -> -> ->; cbn [bind].
    now destruct (get_customer_segment (parser self) ta na).
Qed.

Lemma comparison_missing_key_witness :
  get_customer_segment Sample.repo "family_status" "parentz" = Ok None /\
  generate_comparison_query Sample.generator "total_spending"
      [("type", "family_status"); ("name", "parentz")]
      [("type", "family_status")] = Raise (KeyError "name").
Proof.
  split; [reflexivity|].
  apply (proj2 (proj2 (proj2
           (comparison_missing_key Sample.generator "total_spending"
              [("name", "total_spending"); ("label", "Total Spending");
               ("type", "sum"); ("sql", "MntWines + MntFruits")]
              [("type", "family_status"); ("name", "parentz")]
              [("type", "family_status")] eq_refl)))
           "family_status" "parentz" "family_status"); reflexivity.
Defined.

(** X16.  The comparison generator raises [ValueError("Segment not found")]
    exactly when the metric resolves, both references carry [type] and
    [name], both lookups return, and at least one of them finds nothing or
    finds something empty.  The test comes before any use of the segments,
    so it also wins over a first reference that designates a scalar. *)
Theorem comparison_segment_not_found_iff (self : t) (n : string) (a b : fields) :
  generate_comparison_query self n a b = Raise segment_not_found <->
  exists m ta na tb nb ra rb,
    get_metric (parser self) n = Some m /\
    get "type" a = Some ta /\ get "name" a = Some na /\
    get "type" b = Some tb /\ get "name" b = Some nb /\
    get_customer_segment (parser self) ta na = Ok ra /\
    get_customer_segment (parser self) tb nb = Ok rb /\
    (match ra with Some x => node_truthy x | None => false end = false \/
     match rb with Some x => node_truthy x | None => false end = false).
Proof.
  unfold generate_comparison_query, getitem; split.
  - destruct (get_metric (parser self) n) as [m|] eqn:Hm; [|discriminate].
    rewrite (get_metric_truthy _ _ _ Hm); cbn [negb].
    destruct (get "type" a) as [ta|]; [|discriminate].
    destruct (get "name" a) as [na|]; [|discriminate]; cbn [bind].
    destruct (get_customer_segment (parser self) ta na) as [ra|ea] eqn:Ha;
      [|rewrite (get_customer_segment_raises _ _ _ _ Ha); discriminate].
    cbn [bind].
    destruct (get "type" b) as [tb|]; [|discriminate].
    destruct (get "name" b) as [nb|]; [|discriminate]; cbn [bind].
    destruct (get_customer_segment (parser self) tb nb) as [rb|eb] eqn:Hb;
      [|rewrite (get_customer_segment_raises _ _ _ _ Hb); discriminate].
    cbn [bind].
    intros H; exists m, ta, na, tb, nb, ra, rb.
    repeat (split; [reflexivity || assumption|]).
    destruct ra as [xa|]; [|now left].
    destruct rb as [xb|]; [|now right].
    destruct (node_truthy xa); [|now left].
    destruct (node_truthy xb); [|now right].
    cbn [negb orb] in H.
    destruct xa as [sa|da]; [discriminate|].
    destruct xb as [sb|db]; discriminate.
  - intros [m [ta [na [tb [nb [ra [rb [Hm [-> [-> [Htb [Hnb [Ha [Hb H]]]]]]]]]]]]]].
    rewrite Hm, (get_metric_truthy _ _ _ Hm); cbn [negb bind].
    rewrite Ha; cbn [bind]; rewrite Htb, Hnb; cbn [bind]; rewrite Hb.
    cbn [bind]; clear Ha Hb.
    destruct ra as [xa|]; [|reflexivity].
    destruct rb as [xb|]; [|reflexivity].
    destruct H as [-> | ->]; [reflexivity|].
    now rewrite orb_true_r.
Qed.

Lemma build_where_clauses_reads_two_keys (self : t) (f1 f2 : fields) :
  get "segment_type" f1 = get "segment_type" f2 ->
  get "segment" f1 = get "segment" f2 ->
  build_where_clauses self (Some f1) = build_where_clauses self (Some f2).
Proof.
  intros Ht Hn; unfold build_where_clauses; rewrite Ht, Hn.
  destruct (get "segment_type" f2) as [st|] eqn:Et.
  - now rewrite (get_cons_nonempty _ _ _ Ht), (get_cons_nonempty _ _ _ Et).
  - destruct (dict_truthy f1), (dict_truthy f2); reflexivity.
Qed.

(** X17.  Of a filter the point-metric generator reads the keys
    [segment_type] and [segment] and nothing else: two filters that agree
    on these two keys give the same outcome, whatever other keys they
    carry. *)
Theorem filter_is_read_through_two_keys (self : t) (n : string)
    (f1 f2 : fields) :
  get "segment_type" f1 = get "segment_type" f2 ->
  get "segment" f1 = get "segment" f2 ->
  generate_metric_sql self n (Some f1) = generate_metric_sql self n (Some f2).
Proof.
  intros Ht Hn; unfold generate_metric_sql, metric_sql_body.
  now rewrite (build_where_clauses_reads_two_keys _ _ _ Ht Hn).
Qed.

Lemma filter_is_read_through_two_keys_witness :
  generate_metric_sql Sample.generator "total_spending"
    (Some [("intent", "metric_query"); ("metric", "total_spending");
           ("segment_type", "family_status"); ("segment", "parents")]) =
  generate_metric_sql Sample.generator "total_spending"
    (Some Sample.parents_filter).
Proof.
  apply (filter_is_read_through_two_keys Sample.generator "total_spending"
           [("intent", "metric_query"); ("metric", "total_spending");
            ("segment_type", "family_status"); ("segment", "parents")]
           Sample.parents_filter); reflexivity.
Defined.

(** *** All three *)

Lemma metric_sql_ok_stripped (self : t) (n : string) (f : option fields)
    (sql : string) :
  generate_metric_sql self n f = Ok sql -> exists q, sql = strip q.
Proof.
  unfold generate_metric_sql, metric_sql_body.
  destruct (get_metric (parser self) n) as [m|]; [|discriminate].
  destruct (negb (dict_truthy m)); [discriminate|].
  destruct (build_where_clauses self f) as [wc|]; [|discriminate]; cbn [bind].
  destruct (opt_eqb (get "type" m) "sum" || opt_eqb (get "type" m) "calculated");
    intros [= <-]; eexists; reflexivity.
Qed.

Lemma breakdown_ok_stripped (self : t) (n ty sql : string) :
  generate_segment_breakdown self n ty = Ok sql -> exists q, sql = strip q.
Proof.
  unfold generate_segment_breakdown.
  destruct (get_metric (parser self) n) as [m|]; [|discriminate].
  destruct (negb (dict_truthy m)); [discriminate|].
  destruct (group_items _) as [items|e]; [|discriminate]; cbn [bind].
  intros [= <-]; eexists; reflexivity.
Qed.

Lemma metric_sql_ok_select (self : t) (n : string) (f : option fields)
    (sql : string) :
  generate_metric_sql self n f = Ok sql -> startswith "SELECT " sql = true.
Proof.
  destruct (get_metric (parser self) n) as [m|] eqn:Hm.
  - rewrite (generate_metric_sql_resolved _ _ _ _ Hm), metric_sql_body_outcome.
    destruct (filter_lookup self f) as [[[[|c s]|d]|]|e]; try discriminate;
      intros [= <-]; now destruct (aggregated m).
  - unfold generate_metric_sql; rewrite Hm; discriminate.
Qed.

(** X11.  Whatever statement any of the three generators returns, it
    begins with the keyword [SELECT] followed by a space and carries no
    white space before its first or after its last character. *)
Theorem statements_start_with_select (self : t) (c : Session.call)
    (sql : string) :
  fst (Session.invoke self c) = Ok sql ->
  startswith "SELECT " sql = true /\ strip sql = sql.
Proof.
  destruct c as [n f|n ty|n a b]; cbn [Session.invoke fst]; intros H.
  - split; [exact (metric_sql_ok_select _ _ _ _ H)|].
    destruct (metric_sql_ok_stripped _ _ _ _ H) as [q ->]; apply strip_strip.
  - split.
    + destruct (get_metric (parser self) n) as [m|] eqn:Hm.
      * rewrite (BreakdownFacts.generate_segment_breakdown_outcome _ _ _ _ Hm)
          in H.
        destruct (group_items _) as [items|e]; [|discriminate].
        cbn [bind] in H; now injection H as <-.
      * unfold generate_segment_breakdown in H; rewrite Hm in H; discriminate.
    + destruct (breakdown_ok_stripped _ _ _ _ H) as [q ->]; apply strip_strip.
  - destruct (comparison_ok_inv _ _ _ _ _ H)
      as [m [ta [na [tb [nb [da [db
         [Hm [Hta [Hna [Htb [Hnb [Ha [Hda [Hb Hdb]]]]]]]]]]]]]]].
    pose proof (comparison_query_found _ _ _ _ _ _ _ _ _ _ _
                  Hm Hta Hna Htb Hnb Ha Hb Hda Hdb) as E.
    rewrite E in H.
    apply (f_equal (fun r => match r with Ok x => x | Raise _ => sql end)) in H.
    cbn beta iota in H; subst sql; split; [reflexivity|].
    apply strip_visible; [reflexivity|].
    unfold comparison_select at 2; visible_end.
Qed.

Lemma statements_start_with_select_witness :
  startswith "SELECT "
    (Shapes.breakdown_query
       (Shapes.case_of ["WHEN Kidhome + Teenhome > 0 THEN 'Parents'";
                        "WHEN Kidhome + Teenhome = 0 THEN 'No Children'"])
       "MntWines + MntFruits") = true /\
  strip
    (Shapes.breakdown_query
       (Shapes.case_of ["WHEN Kidhome + Teenhome > 0 THEN 'Parents'";
                        "WHEN Kidhome + Teenhome = 0 THEN 'No Children'"])
       "MntWines + MntFruits") =
  Shapes.breakdown_query
    (Shapes.case_of ["WHEN Kidhome + Teenhome > 0 THEN 'Parents'";
                     "WHEN Kidhome + Teenhome = 0 THEN 'No Children'"])
    "MntWines + MntFruits".
Proof.
  apply (statements_start_with_select Sample.generator
           (Session.SegmentBreakdown "total_spending" "family_status"));
    reflexivity.
Defined.

End GeneratorOutcomeFacts.


(** ** The intent resolver's text handling *)

Module LLMClientFacts.
Import PyStr PyStrFacts.
Import LLMClient.

(** *** Slices *)

Lemma length_append (a b : string) :
  String.length (a ++ b) = String.length a + String.length b.
Proof. induction a as [|c a IH]; simpl; [reflexivity | now rewrite IH]. Qed.

Lemma drop_app (a b : string) : drop (String.length a) (a ++ b) = b.
Proof. induction a as [|c a IH]; simpl; [now destruct b | exact IH]. Qed.

Lemma take_app (a b : string) : take (String.length a) (a ++ b) = a.
Proof.
  induction a as [|c a IH]; simpl; [now destruct b | now rewrite IH].
Qed.

Lemma endswith_app (a suf : string) : endswith suf (a ++ suf) = true.
Proof.
  unfold endswith; rewrite length_append.
  replace (String.length a + String.length suf - String.length suf)
    with (String.length a) by lia.
  rewrite drop_app, String.eqb_refl, andb_true_r.
  apply Nat.leb_le; lia.
Qed.

Lemma drop_last_app (a suf : string) :
  drop_last (String.length suf) (a ++ suf) = a.
Proof.
  unfold drop_last; rewrite length_append.
  replace (String.length a + String.length suf - String.length suf)
    with (String.length a) by lia.
  apply take_app.
Qed.

Lemma startswith_plain (body rest : string) :
  starts_plain body = true -> startswith "```" (body ++ rest) = false.
Proof.
  destruct body as [|c body]; [discriminate|]; unfold starts_plain; intros H.
  apply negb_true_iff in H; rewrite Ascii.eqb_sym in H.
  change (String c body ++ rest) with (String c (body ++ rest)).
  cbn [startswith]; now rewrite H.
Qed.

Lemma startswith_app_l (p q t : string) :
  startswith (p ++ q) t = true -> startswith p t = true.
Proof.
  revert t; induction p as [|a p IH]; intros t; [reflexivity|].
  destruct t as [|b t]; [discriminate|].
  change (String a p ++ q) with (String a (p ++ q)); cbn [startswith].
  rewrite !andb_true_iff; intros [Ha H]; split; [exact Ha | now apply IH].
Qed.

Lemma startswith_json_fence (t : string) :
  startswith "```" t = false -> startswith "```json" t = false.
Proof.
  intros H; destruct (startswith "```json" t) eqn:E; [|reflexivity].
  apply (startswith_app_l "```" "json") in E; congruence.
Qed.

Lemma strip_fenced (w1 fence body w2 : string) :
  lstrip w1 = "" -> rstrip w2 = "" -> head_visible fence = true ->
  strip (w1 ++ fence ++ body ++ "```" ++ w2) = fence ++ body ++ "```".
Proof.
  intros H1 H2 Hf.
  transitivity (strip (w1 ++ (fence ++ body ++ "```") ++ w2)).
  - f_equal; now rewrite !append_assoc.
  - apply strip_sandwich; try assumption.
    + now apply head_visible_app.
    + visible_end.
Qed.

(** X12.  An answer wrapped in a Markdown fence is unwrapped: for a body
    that does not begin with a backtick, the text handed to the JSON parser
    for [```json<body>```], with any white space around the fences, is the
    body stripped; so it is for the plain fence [```<body>```] when the
    body does not itself begin with [json]. *)
Theorem fenced_answer_is_unwrapped (w1 body w2 : string) :
  lstrip w1 = "" -> rstrip w2 = "" -> starts_plain body = true ->
  response_json_text (w1 ++ "```json" ++ body ++ "```" ++ w2) = strip body /\
  (startswith "json" body = false ->
   response_json_text (w1 ++ "```" ++ body ++ "```" ++ w2) = strip body).
Proof.
  intros H1 H2 Hb; unfold response_json_text; split; [|intros Hj].
  - rewrite (strip_fenced w1 "```json" body w2 H1 H2 eq_refl).
    change (startswith "```json" ("```json" ++ body ++ "```")) with true.
    cbv iota.
    change (drop 7 ("```json" ++ body ++ "```")) with (body ++ "```").
    rewrite (startswith_plain _ _ Hb), endswith_app.
    f_equal; exact (drop_last_app body "```").
  - rewrite (strip_fenced w1 "```" body w2 H1 H2 eq_refl).
    change (startswith "```json" ("```" ++ body ++ "```"))
      with (startswith "json" (body ++ "```")).
    assert (E : startswith "json" (body ++ "```") = false).
    { rewrite startswith_app_foreign; [exact Hj | discriminate | reflexivity]. }
    rewrite E.
    change (startswith "```" ("```" ++ body ++ "```")) with true.
    cbv iota.
    change (drop 3 ("```" ++ body ++ "```")) with (body ++ "```").
    rewrite endswith_app.
    f_equal; exact (drop_last_app body "```").
Qed.

Lemma fenced_answer_is_unwrapped_witness :
  response_json_text ("  " ++ "```json" ++ (nl ++ "{}" ++ nl) ++ "```" ++ nl)
  = "{}".
Proof.
  apply (fenced_answer_is_unwrapped "  " (nl ++ "{}" ++ nl) nl); reflexivity.
Defined.

(** X13.  An answer that, once stripped, neither begins nor ends with a
    triple backtick reaches the JSON parser stripped and otherwise
    untouched. *)
Theorem unfenced_answer_is_only_stripped (text : string) :
  startswith "```" (strip text) = false ->
  endswith "```" (strip text) = false ->
  response_json_text text = strip text.
Proof.
  intros Hs He; unfold response_json_text.
  rewrite (startswith_json_fence _ Hs), Hs, He.
  apply GeneratorOutcomeFacts.strip_strip.
Qed.

Lemma unfenced_answer_is_only_stripped_witness :
  response_json_text (nl ++ "{}" ++ "  ") = "{}".
Proof.
  apply (unfenced_answer_is_only_stripped (nl ++ "{}" ++ "  ")); reflexivity.
Defined.

(** *** The system prompt *)

Lemma Substring_refl (s : string) : Substring s s.
Proof. exists "", ""; simpl; now rewrite append_nil_r. Qed.

Lemma Substring_trans (a b c : string) :
  Substring a b -> Substring b c -> Substring a c.
Proof. intros H [pre [post ->]]; now apply Substring_app. Qed.

(** Each element of a list joined with line breaks and two spaces sits on
    a line of its own once the text is framed by that separator and a line
    break. *)
Lemma joined_line (n : string) (l : list string) :
  In n l ->
  Substring (nl ++ "  " ++ n ++ nl) (nl ++ "  " ++ join (nl ++ "  ") l ++ nl).
Proof.
  induction l as [|x l IH]; [contradiction|]; intros Hin.
  destruct l as [|y l].
  - destruct Hin as [->|[]]; apply Substring_refl.
  - change (join (nl ++ "  ") (x :: y :: l))
      with (x ++ (nl ++ "  ") ++ join (nl ++ "  ") (y :: l)).
    destruct Hin as [->|Hin].
    + exists "", ("  " ++ join (nl ++ "  ") (y :: l) ++ nl).
      rewrite !append_assoc; reflexivity.
    + replace (nl ++ "  " ++ (x ++ (nl ++ "  ") ++ join (nl ++ "  ") (y :: l)) ++ nl)
        with ((nl ++ "  " ++ x) ++
              (nl ++ "  " ++ join (nl ++ "  ") (y :: l) ++ nl) ++ "")
        by (rewrite !append_assoc, append_nil_r; reflexivity).
      apply Substring_app, IH, Hin.
Qed.

Lemma fold_segment_lines (l : dict (list string)) (acc : string) :
  fold_left add_segment_line l acc =
  acc ++ fold_left add_segment_line l "".
Proof.
  revert acc; induction l as [|[ty names] l IH]; intros acc; cbn [fold_left].
  - now rewrite append_nil_r.
  - rewrite (IH (add_segment_line acc (ty, names))),
            (IH (add_segment_line "" (ty, names))).
    unfold add_segment_line; change ("" ++ ?x) with x.
    now rewrite !append_assoc.
Qed.

Lemma segment_lines_then_break (l : dict (list string)) :
  exists r, fold_left add_segment_line l "" ++ nl = nl ++ r.
Proof.
  destruct l as [|[ty names] l]; [now exists ""|]; cbn [fold_left].
  rewrite fold_segment_lines; unfold add_segment_line.
  eexists; rewrite !append_assoc; reflexivity.
Qed.

Lemma segment_line_listed (item : string * list string)
    (l : dict (list string)) :
  In item l ->
  Substring (segment_line item ++ nl) (fold_left add_segment_line l "" ++ nl).
Proof.
  induction l as [|[ty names] l IH]; [contradiction|]; intros Hin.
  cbn [fold_left]; rewrite fold_segment_lines.
  change (add_segment_line "" (ty, names)) with (segment_line (ty, names)).
  rewrite append_assoc.
  destruct Hin as [<-|Hin].
  - destruct (segment_lines_then_break l) as [r E].
    exists "", r; rewrite E, !append_assoc; reflexivity.
  - destruct (IH Hin) as [pre [post E]].
    exists (segment_line (ty, names) ++ pre), post.
    rewrite E, !append_assoc; reflexivity.
Qed.

Lemma prompt_frames_metrics (self : LLMClient.t) :
  exists pre post,
    build_system_prompt self =
    pre ++ (nl ++ "  " ++ join (nl ++ "  ") (LLMClient.metrics self) ++ nl) ++ post.
Proof.
  unfold build_system_prompt; cbv zeta.
  exists ("You are a data analyst assistant that helps users query customer data using a semantic layer." ++
          nl ++ nl ++ "AVAILABLE CUSTOMER SEGMENTS:" ++
          fold_left add_segment_line (LLMClient.segments self) "" ++
          nl ++ nl ++ "AVAILABLE METRICS:").
  eexists; rewrite !append_assoc; reflexivity.
Qed.

Lemma prompt_frames_segments (self : LLMClient.t) :
  exists pre post,
    build_system_prompt self =
    pre ++ (fold_left add_segment_line (LLMClient.segments self) "" ++ nl) ++ post.
Proof.
  unfold build_system_prompt; cbv zeta.
  exists ("You are a data analyst assistant that helps users query customer data using a semantic layer." ++
          nl ++ nl ++ "AVAILABLE CUSTOMER SEGMENTS:").
  eexists; rewrite !append_assoc; reflexivity.
Qed.

(** X14.  The system prompt advertises every metric the repository
    resolves: each name [get_metric] finds appears in the prompt on a line
    of its own, indented by two spaces. *)
Theorem prompt_lists_every_metric (parser : SemanticLayerParser)
    (n : string) (m : fields) :
  get_metric parser n = Some m ->
  Substring (nl ++ "  " ++ n ++ nl) (build_system_prompt (init parser)).
Proof.
  intros Hm.
  assert (Hin : In n (LLMClient.metrics (init parser)))
    by (apply EnumerationFacts.list_all_metrics_In; now exists m).
  destruct (prompt_frames_metrics (init parser)) as [pre [post ->]].
  apply Substring_app, joined_line, Hin.
Qed.

Lemma prompt_lists_every_metric_witness :
  Substring (nl ++ "  " ++ "customer_lifetime_value" ++ nl)
            (build_system_prompt (init Demo.repo)).
Proof.
  apply (prompt_lists_every_metric Demo.repo "customer_lifetime_value"
           [("name", "customer_lifetime_value"); ("type", "calculated");
            ("sql", "MntWines * 12 / Income")]); reflexivity.
Defined.

Lemma get_In {V : Type} (k : string) (v : V) (d : dict V) :
  get k d = Some v -> In (k, v) d.
Proof.
  induction d as [|[k' v'] d IH]; simpl; [discriminate|].
  destruct (String.eqb_spec k' k) as [->|_].
  - intros [= ->]; now left.
  - intros H; right; now apply IH.
Qed.

(** X15.  When the taxonomy's type names are distinct, the system prompt
    advertises every segment type other than [metadata] that the taxonomy
    binds to a mapping on a line of its own: the type, a colon, and the
    names stored under it, in their order, separated by commas. *)
Theorem prompt_lists_every_segment_type (parser : SemanticLayerParser)
    (ty : string) (segs : dict node) :
  NoDup (map fst (get_default "taxonomy" [] (taxonomy parser))) ->
  ty <> "metadata" ->
  get ty (get_default "taxonomy" [] (taxonomy parser)) = Some (GMap segs) ->
  Substring (nl ++ "  " ++ ty ++ ": " ++ join ", " (map fst segs) ++ nl)
            (build_system_prompt (init parser)).
Proof.
  intros Hnd Hty Hget.
  assert (Hin : In (ty, map fst segs) (LLMClient.segments (init parser))).
  { cbn [init LLMClient.segments].
    rewrite (EnumerationFacts.list_all_segments_on_distinct_keys _ Hnd).
    apply (in_map Enumeration.listing _ (ty, GMap segs)), filter_In; split.
    - now apply get_In.
    - unfold Enumeration.kept; cbn [fst snd Enumeration.is_dict andb].
      now destruct (String.eqb_spec ty "metadata").
  }
  destruct (prompt_frames_segments (init parser)) as [pre [post ->]].
  apply Substring_app.
  pose proof (segment_line_listed _ _ Hin) as H.
  unfold segment_line in H; cbn [fst snd] in H.
  now rewrite !append_assoc in H.
Qed.

Lemma prompt_lists_every_segment_type_witness :
  Substring (nl ++ "  " ++ "family_status" ++ ": " ++
             "description, parents, no_children" ++ nl)
            (build_system_prompt (init Demo.repo)).
Proof.
  apply (prompt_lists_every_segment_type Demo.repo "family_status"
           [("description", NScalar "Household composition");
            ("parents", NDict [("definition", "Kidhome + Teenhome > 0");
                               ("label", "Parents")]);
            ("no_children", NDict [("definition", "Kidhome + Teenhome = 0");
                                   ("label", "No Children")])]
           EnumerationFacts.demo_types_distinct);
    [discriminate | reflexivity].
Defined.

End LLMClientFacts.
